(** * EKS infrastructure program: declarations, configuration and HPA demo

    A shallow embedding of the three Python modules of the repository
    ([config.py], [hpa.py], [__main__.py]).  The program is a straight-line
    sequence of resource declarations handed to the Pulumi SDK; the embedding
    keeps the declared resources in a registry (in declaration order), the
    stack outputs in a finite map and Python exceptions in an error type. *)

From Stdlib Require Import ZArith List Lia Ascii String.
From Stdlib Require Import Floats.SpecFloat.
From stdpp Require Import gmap strings list fin_maps relations pretty.

Local Open Scope Z_scope.
Local Open Scope string_scope.
Set Warnings "-register-all".

(** ** Python data *)

(** Plain Python data: what [json.loads] can return and what the literals of
    the program denote.  Dictionaries keep insertion order and have string
    keys (JSON objects and every dict literal of the program do). *)
Inductive pyval : Type :=
| PNone
| PBool (b : bool)
| PInt (n : Z)
| PFloat (f : spec_float)
| PStr (s : string)
| PList (l : list pyval)
| PDict (d : list (string * pyval)).

(** Exceptions the modelled code can raise. *)
Inductive pyexc : Type :=
| ConfigTypeError (key : string)
| IndexError
| KeyError
| TypeError
| AttributeError (attr : string)
| ImportError (name : string).

Inductive exc (A : Type) : Type :=
| Ok (a : A)
| Raise (e : pyexc).
Arguments Ok {A} a.
Arguments Raise {A} e.

#[global] Instance exc_ret : MRet exc := fun A a => Ok a.
#[global] Instance exc_bind : MBind exc := fun A B f m =>
  match m with
  | Ok a => f a
  | Raise e => Raise e
  end.

(** Python truth value testing, per type. *)
Class Truthy (A : Type) := truthy : A -> bool.

#[global] Instance truthy_bool : Truthy bool := fun b => b.
#[global] Instance truthy_int : Truthy Z := fun n => negb (Z.eqb n 0).
#[global] Instance truthy_str : Truthy string := fun s =>
  match s with EmptyString => false | String _ _ => true end.
#[global] Instance truthy_pyval : Truthy pyval := fun v =>
  match v with
  | PNone => false
  | PBool b => b
  | PInt n => negb (Z.eqb n 0)
  | PFloat f => match f with S754_zero _ => false | _ => true end
  | PStr s => truthy s
  | PList l => match l with [] => false | _ :: _ => true end
  | PDict d => match d with [] => false | _ :: _ => true end
  end.

(** [x or d] where [x] is an [Optional[T]] returned by a configuration
    accessor and [d] a literal of type [T]: [None] and falsy values both
    give [d]. *)
Definition py_or {A} `{Truthy A} (x : option A) (d : A) : A :=
  match x with
  | Some v => if truthy v then v else d
  | None => d
  end.

(** [v[i]] for a non-negative integer literal [i]. *)
Definition subscript (v : pyval) (i : nat) : exc pyval :=
  match v with
  | PList l =>
      match l !! i with Some x => Ok x | None => Raise IndexError end
  | PStr s =>
      match String.get i s with
      | Some c => Ok (PStr (String c EmptyString))
      | None => Raise IndexError
      end
  | PDict _ => Raise KeyError
  | PNone | PBool _ | PInt _ | PFloat _ => Raise TypeError
  end.

(** [from m import n1, ..., nk], where [defined] lists what [m] defines: the
    statement raises [ImportError] at the first name that [m] lacks. *)
Definition import_from (defined names : list string) : exc unit :=
  match List.find (fun n => negb (existsb (String.eqb n) defined)) names with
  | Some n => Raise (ImportError n)
  | None => Ok tt
  end.

(** Dict update [d[k] = v]: replaces in place, or appends a new key. *)
Fixpoint dict_set {V} (d : list (string * V)) (k : string) (v : V)
  : list (string * V) :=
  match d with
  | [] => [(k, v)]
  | (k', v') :: d' =>
      if String.eqb k' k then (k', v) :: d' else (k', v') :: dict_set d' k v
  end.

Fixpoint dict_get {V} (d : list (string * V)) (k : string) : option V :=
  match d with
  | [] => None
  | (k', v') :: d' => if String.eqb k' k then Some v' else dict_get d' k
  end.

(** The dict display [{**base, k1: v1, ..., kn: vn}]. *)
Definition dict_extend {V} (base extra : list (string * V))
  : list (string * V) :=
  fold_left (fun d kv => dict_set d (fst kv) (snd kv)) extra base.

(** Library functions of Python that the program calls and whose text is not
    part of the repository: [int(str)] ([None] for [ValueError]),
    [json.loads] ([None] for a decoding error) and [json.dumps]. *)
Class PyBuiltins := {
  py_int : string -> option Z;
  json_loads : string -> option pyval;
  json_dumps : pyval -> string;
}.

(** ** The configuration store ([pulumi.Config()])

    The stack configuration of the project: raw strings by key. *)
Abbreviation Config := (gmap string string).

Section ConfigAccessors.
Context `{PyBuiltins}.

Definition get (cfg : Config) (key : string) : option string :=
  cfg !! key.

Definition get_bool (cfg : Config) (key : string) : exc (option bool) :=
  match cfg !! key with
  | None => Ok None
  | Some v =>
      if String.eqb v "true" || String.eqb v "True" then Ok (Some true)
      else if String.eqb v "false" || String.eqb v "False" then
        Ok (Some false)
      else Raise (ConfigTypeError key)
  end.

Definition get_int (cfg : Config) (key : string) : exc (option Z) :=
  match cfg !! key with
  | None => Ok None
  | Some v =>
      match py_int v with
      | Some n => Ok (Some n)
      | None => Raise (ConfigTypeError key)
      end
  end.

Definition get_object (cfg : Config) (key : string) : exc (option pyval) :=
  match cfg !! key with
  | None => Ok None
  | Some v =>
      match json_loads v with
      | Some o => Ok (Some o)
      | None => Raise (ConfigTypeError key)
      end
  end.
End ConfigAccessors.

(** ** [config.py] *)
Module config.

Record globals := {
  vpc_name : string;
  vpc_cidr : string;
  availability_zones : pyval;
  private_subnet_1_cidr : string;
  private_subnet_2_cidr : string;
  public_subnet_1_cidr : string;
  public_subnet_2_cidr : string;
  cluster_name : string;
  cluster_version : string;
  cluster_role_name : string;
  node_group_name : string;
  node_desired_count : Z;
  node_min_count : Z;
  node_max_count : Z;
  node_instance_type : string;
  node_role_name : string;
  aws_region : string;
  common_tags : list (string * pyval);
}.

(** Executing the module body, top to bottom. *)
Definition load `{PyBuiltins} (cfg : Config) : exc globals :=
  let vpc_name := py_or (get cfg "vpc_name") "eks-vpc" in
  let vpc_cidr := py_or (get cfg "vpc_cidr") "10.0.0.0/16" in
  az ← get_object cfg "availability_zones";
  let availability_zones :=
    py_or az (PList [PStr "us-east-1a"; PStr "us-east-1b"]) in
  let private_subnet_1_cidr :=
    py_or (get cfg "private_subnet_1_cidr") "10.0.1.0/24" in
  let private_subnet_2_cidr :=
    py_or (get cfg "private_subnet_2_cidr") "10.0.2.0/24" in
  let public_subnet_1_cidr :=
    py_or (get cfg "public_subnet_1_cidr") "10.0.101.0/24" in
  let public_subnet_2_cidr :=
    py_or (get cfg "public_subnet_2_cidr") "10.0.102.0/24" in
  let cluster_name := py_or (get cfg "cluster_name") "eks-cluster" in
  let cluster_version := py_or (get cfg "cluster_version") "1.28" in
  let cluster_role_name :=
    py_or (get cfg "cluster_role_name") "eks-cluster-role" in
  let node_group_name :=
    py_or (get cfg "node_group_name") "eks-node-group" in
  desired ← get_int cfg "node_desired_count";
  let node_desired_count := py_or desired 2 in
  minc ← get_int cfg "node_min_count";
  let node_min_count := py_or minc 1 in
  maxc ← get_int cfg "node_max_count";
  let node_max_count := py_or maxc 4 in
  let node_instance_type :=
    py_or (get cfg "node_instance_type") "t3.medium" in
  let node_role_name := py_or (get cfg "node_role_name") "eks-node-role" in
  let aws_region := py_or (get cfg "aws_region") "us-east-1" in
  let common_tags :=
    [ ("Environment", PStr (py_or (get cfg "environment") "dev"));
      ("Project", PStr (py_or (get cfg "project") "eks-project"));
      ("CreatedBy", PStr "Pulumi") ] in
  mret {|
    vpc_name := vpc_name;
    vpc_cidr := vpc_cidr;
    availability_zones := availability_zones;
    private_subnet_1_cidr := private_subnet_1_cidr;
    private_subnet_2_cidr := private_subnet_2_cidr;
    public_subnet_1_cidr := public_subnet_1_cidr;
    public_subnet_2_cidr := public_subnet_2_cidr;
    cluster_name := cluster_name;
    cluster_version := cluster_version;
    cluster_role_name := cluster_role_name;
    node_group_name := node_group_name;
    node_desired_count := node_desired_count;
    node_min_count := node_min_count;
    node_max_count := node_max_count;
    node_instance_type := node_instance_type;
    node_role_name := node_role_name;
    aws_region := aws_region;
    common_tags := common_tags;
  |}.

End config.

(** ** [hpa.py]: imports and module-level settings *)
Module hpa_config.

(** What [pulumi_kubernetes.autoscaling.v2] defines among the names that
    [hpa.py] asks it for.  The package is not part of the repository; it has
    no [TargetAverageUtilizationMetricStatusArgs]. *)
Definition autoscaling_v2 : list string :=
  [ "HorizontalPodAutoscalerArgs"; "HorizontalPodAutoscalerSpecArgs";
    "MetricSpecArgs"; "ResourceMetricSourceArgs" ].

(** The import statements at the head of the module (lines 5 to 16).  The
    modules and names of lines 5 to 12 exist; the last statement, lines 13
    to 16, asks [pulumi_kubernetes.autoscaling.v2] for five names. *)
Definition imports : exc unit :=
  import_from autoscaling_v2
    [ "HorizontalPodAutoscalerArgs"; "HorizontalPodAutoscalerSpecArgs";
      "MetricSpecArgs"; "ResourceMetricSourceArgs";
      "TargetAverageUtilizationMetricStatusArgs" ].

Record globals := {
  enable_hpa : bool;
  hpa_min_replicas : Z;
  hpa_max_replicas : Z;
  hpa_cpu_threshold : Z;
  hpa_memory_threshold : Z;
  demo_namespace : string;
  demo_app_name : string;
  demo_app_image : string;
  demo_app_replicas : Z;
  demo_app_port : Z;
  common_tags : list (string * pyval);
}.

(** The assignments that follow the imports (lines 18 to 37). *)
Definition settings `{PyBuiltins} (cfg : Config) : exc globals :=
  en ← get_bool cfg "enable_hpa";
  let enable_hpa := py_or en true in
  minr ← get_int cfg "hpa_min_replicas";
  let hpa_min_replicas := py_or minr 2 in
  maxr ← get_int cfg "hpa_max_replicas";
  let hpa_max_replicas := py_or maxr 10 in
  cpu ← get_int cfg "hpa_cpu_threshold";
  let hpa_cpu_threshold := py_or cpu 70 in
  mem ← get_int cfg "hpa_memory_threshold";
  let hpa_memory_threshold := py_or mem 80 in
  let demo_namespace := py_or (get cfg "demo_namespace") "default" in
  let demo_app_name := py_or (get cfg "demo_app_name") "demo-app" in
  let demo_app_image := py_or (get cfg "demo_app_image") "nginx:latest" in
  reps ← get_int cfg "demo_app_replicas";
  let demo_app_replicas := py_or reps 2 in
  port ← get_int cfg "demo_app_port";
  let demo_app_port := py_or port 80 in
  let common_tags :=
    [ ("ManagedBy", PStr "Pulumi"); ("Component", PStr "HPA") ] in
  mret {|
    enable_hpa := enable_hpa;
    hpa_min_replicas := hpa_min_replicas;
    hpa_max_replicas := hpa_max_replicas;
    hpa_cpu_threshold := hpa_cpu_threshold;
    hpa_memory_threshold := hpa_memory_threshold;
    demo_namespace := demo_namespace;
    demo_app_name := demo_app_name;
    demo_app_image := demo_app_image;
    demo_app_replicas := demo_app_replicas;
    demo_app_port := demo_app_port;
    common_tags := common_tags;
  |}.

(** Executing the module body, top to bottom: the imports, then the
    assignments. *)
Definition load `{PyBuiltins} (cfg : Config) : exc globals :=
  _ ← imports;
  settings cfg.

End hpa_config.

(** ** Resource declarations

    A resource object is identified by its position in the registry, the
    order in which the constructors ran. *)
Definition rid := nat.

(** An argument of a resource constructor: plain data, an output of another
    resource ([r.attr], [r.attr['key']]), or a container (argument object,
    dict, list) that may hold outputs.  The SDK classes are not part of the
    repository: reading an attribute of a custom resource object is taken to
    yield the output of that name, as the program expects of every attribute
    it reads.  A component resource, the Helm chart of [hpa.py], has no
    provider-assigned id: its [id] attribute is the plain value [None]. *)
Inductive input : Type :=
| Lit (v : pyval)
| Out (r : rid) (path : list string)
| Obj (fields : list (string * input))
| Arr (items : list input).

(** [pulumi.ResourceOptions(provider=..., depends_on=[...])]. *)
Record ResourceOptions := {
  provider : option rid;
  depends_on : list rid;
}.

Definition no_opts : ResourceOptions :=
  {| provider := None; depends_on := [] |}.

Record Resource := {
  rtype : string;                    (* the SDK class that was instantiated *)
  rname : string;                    (* logical name, first positional arg *)
  rargs : list (string * input);     (* keyword arguments, in source order *)
  ropts : ResourceOptions;
}.

(** What running the program leaves with the SDK. *)
Record Stack := {
  resources : list Resource;
  outputs : gmap string input;       (* pulumi.export *)
  infos : list string;               (* pulumi.info *)
}.

Definition empty_stack : Stack :=
  {| resources := []; outputs := ∅; infos := [] |}.

(** Statements run against the stack and may raise; what was registered
    before an exception stays registered. *)
Definition M (A : Type) : Type := Stack -> exc A * Stack.

#[global] Instance M_ret : MRet M := fun A a st => (Ok a, st).
#[global] Instance M_bind : MBind M := fun A B f m st =>
  match m st with
  | (Ok a, st') => f a st'
  | (Raise e, st') => (Raise e, st')
  end.

Definition lift {A} (m : exc A) : M A := fun st => (m, st).

Definition new_resource (ty name : string) (args : list (string * input))
    (opts : ResourceOptions) : M rid := fun st =>
  (Ok (length (resources st)),
   {| resources := resources st ++
        [ {| rtype := ty; rname := name; rargs := args; ropts := opts |} ];
      outputs := outputs st;
      infos := infos st |}).

Definition export (key : string) (v : input) : M unit := fun st =>
  (Ok tt,
   {| resources := resources st;
      outputs := <[key := v]> (outputs st);
      infos := infos st |}).

Definition info (msg : string) : M unit := fun st =>
  (Ok tt,
   {| resources := resources st;
      outputs := outputs st;
      infos := infos st ++ [msg] |}).

(** [o.attr[k1]...[kn]] on a variable that may hold [None]. *)
Definition getattr (o : option rid) (attr : string) (keys : list string)
  : exc input :=
  match o with
  | Some r => Ok (Out r (attr :: keys))
  | None => Raise (AttributeError attr)
  end.

Definition str (s : string) : input := Lit (PStr s).
Definition int (n : Z) : input := Lit (PInt n).
Definition bool_ (b : bool) : input := Lit (PBool b).

(** [{**common_tags, 'Name': n, ...}] *)
Definition tags (common : list (string * pyval))
    (extra : list (string * string)) : input :=
  Lit (PDict (dict_extend common (map (fun kv => (fst kv, PStr (snd kv))) extra))).

(** ** [hpa.py]: functions

    The functions read the module-level settings [g] when they are called. *)
Module hpa.
Import hpa_config.

(** [metrics_chart] is a [ComponentResource]: [metrics_chart.id] at line 60
    is [None], and that is what the function exports. *)
Definition create_metrics_server (g : globals) (provider : rid) : M unit :=
  if enable_hpa g then
    _ ← new_resource "k8s.helm.v3.Chart" "metrics-server"
      [ ("config", Obj [
           ("chart", str "metrics-server");
           ("namespace", str "kube-system");
           ("values", Lit (PDict [
              ("args", PList [
                 PStr "--kubelet-insecure-tls";
                 PStr "--kubelet-preferred-address-types=InternalIP" ]) ]));
           ("repo",
            str "https://kubernetes-sigs.github.io/metrics-server/charts") ]) ]
      {| provider := Some provider; depends_on := [] |};
    export "metrics_server_chart" (Lit PNone)
  else mret tt.

Definition create_demo_deployment (g : globals) (provider : rid) : M rid :=
  let app_labels :=
    dict_extend [("app", PStr (demo_app_name g))] (common_tags g) in
  deployment ← new_resource "k8s.apps.v1.Deployment" (demo_app_name g)
    [ ("metadata", Obj [
         ("namespace", str (demo_namespace g));
         ("labels", Lit (PDict app_labels)) ]);
      ("spec", Obj [
         ("replicas", int (demo_app_replicas g));
         ("selector", Obj [
            ("match_labels", Lit (PDict [("app", PStr (demo_app_name g))])) ]);
         ("template", Obj [
            ("metadata", Obj [ ("labels", Lit (PDict app_labels)) ]);
            ("spec", Obj [
               ("containers", Arr [
                  Obj [
                    ("name", str (demo_app_name g));
                    ("image", str (demo_app_image g));
                    ("ports", Lit (PList [
                       PDict [("container_port", PInt (demo_app_port g))] ]));
                    ("resources", Obj [
                       ("requests", Lit (PDict [
                          ("cpu", PStr "100m"); ("memory", PStr "128Mi") ]));
                       ("limits", Lit (PDict [
                          ("cpu", PStr "500m"); ("memory", PStr "512Mi") ])) ])
                  ] ]) ]) ]) ]) ]
    {| provider := Some provider; depends_on := [] |};
  mret deployment.

Definition create_demo_service (g : globals) (provider : rid) : M rid :=
  service ← new_resource "k8s.core.v1.Service"
    (demo_app_name g ++ "-service")
    [ ("metadata", Obj [
         ("namespace", str (demo_namespace g));
         ("labels", Lit (PDict [("app", PStr (demo_app_name g))])) ]);
      ("spec", Obj [
         ("selector", Lit (PDict [("app", PStr (demo_app_name g))]));
         ("ports", Arr [
            Obj [ ("port", int 80); ("target_port", int (demo_app_port g)) ] ]);
         ("type", str "LoadBalancer") ]) ]
    {| provider := Some provider; depends_on := [] |};
  mret service.

(** One entry of the [metrics] list of the autoscaler spec. *)
Definition resource_metric (name : string) (threshold : Z) : pyval :=
  PDict [
    ("type", PStr "Resource");
    ("resource", PDict [
       ("name", PStr name);
       ("target", PDict [
          ("type", PStr "Utilization");
          ("averageUtilization", PInt threshold) ]) ]) ].

Definition create_hpa (g : globals) (deployment provider : rid)
  : M (option rid) :=
  if negb (enable_hpa g) then mret None
  else
    hpa ← new_resource "k8s.autoscaling.v2.HorizontalPodAutoscaler"
      (demo_app_name g ++ "-hpa")
      [ ("metadata", Obj [
           ("namespace", str (demo_namespace g));
           ("labels", Lit (PDict [("app", PStr (demo_app_name g))])) ]);
        ("spec", Obj [
           ("scale_target_ref", Obj [
              ("apiVersion", str "apps/v1");
              ("kind", str "Deployment");
              ("name", Out deployment ["metadata"; "name"]) ]);
           ("min_replicas", int (hpa_min_replicas g));
           ("max_replicas", int (hpa_max_replicas g));
           ("metrics", Lit (PList [
              resource_metric "cpu" (hpa_cpu_threshold g);
              resource_metric "memory" (hpa_memory_threshold g) ])) ]) ]
      {| provider := Some provider; depends_on := [deployment] |};
    mret (Some hpa).

Definition setup_hpa_infrastructure (g : globals) (provider : rid)
  : M (list (string * input)) :=
  if negb (enable_hpa g) then
    _ ← info "HPA is disabled. Skipping HPA setup.";
    mret []
  else
    _ ← create_metrics_server g provider;
    deployment ← create_demo_deployment g provider;
    service ← create_demo_service g provider;
    hpa ← create_hpa g deployment provider;
    hpa_name ← lift (getattr hpa "metadata" ["name"]);
    mret [
      ("deployment_name", Out deployment ["metadata"; "name"]);
      ("service_name", Out service ["metadata"; "name"]);
      ("hpa_name", hpa_name);
      ("hpa_min_replicas", int (hpa_min_replicas g));
      ("hpa_max_replicas", int (hpa_max_replicas g));
      ("hpa_cpu_threshold", int (hpa_cpu_threshold g));
      ("hpa_memory_threshold", int (hpa_memory_threshold g)) ].

End hpa.

(** ** [__main__.py] *)
Module main.
Import config.

(** The module-level variables bound to resource objects. *)
Record vars := {
  vpc : rid;
  igw : rid;
  public_subnet_1 : rid;
  public_subnet_2 : rid;
  private_subnet_1 : rid;
  private_subnet_2 : rid;
  eip_1 : rid;
  eip_2 : rid;
  nat_gateway_1 : rid;
  nat_gateway_2 : rid;
  public_route_table : rid;
  public_route_table_assoc_1 : rid;
  public_route_table_assoc_2 : rid;
  private_route_table_1 : rid;
  private_route_table_2 : rid;
  private_route_table_assoc_1 : rid;
  private_route_table_assoc_2 : rid;
  cluster_role : rid;
  cluster_role_policy_attachment : rid;
  cluster_role_vpc_policy_attachment : rid;
  node_role : rid;
  node_role_policy_attachment : rid;
  node_cni_policy_attachment : rid;
  node_registry_policy_attachment : rid;
  cluster_security_group : rid;
  node_security_group : rid;
  eks_cluster : rid;
  node_group : rid;
}.

(** The trust policy documents, before [json.dumps]. *)
Definition trust_policy (service : string) : pyval :=
  PDict [
    ("Version", PStr "2012-10-17");
    ("Statement", PList [
       PDict [
         ("Action", PStr "sts:AssumeRole");
         ("Effect", PStr "Allow");
         ("Principal", PDict [ ("Service", PStr service) ]) ] ]) ].

Definition assume_role_policy : pyval := trust_policy "eks.amazonaws.com".
Definition node_assume_role_policy : pyval := trust_policy "ec2.amazonaws.com".

Definition all_traffic_egress : input :=
  Arr [ Obj [
    ("protocol", str "-1");
    ("from_port", int 0);
    ("to_port", int 0);
    ("cidr_blocks", Lit (PList [PStr "0.0.0.0/0"])) ] ].

(** The statements after the imports, with the settings of [config.py]
    in [c]. *)
Definition declarations `{PyBuiltins} (c : globals) : M vars :=
  (* VPC setup *)
  vpc ← new_resource "aws.ec2.Vpc" (vpc_name c)
    [ ("cidr_block", str (vpc_cidr c));
      ("enable_dns_hostnames", bool_ true);
      ("enable_dns_support", bool_ true);
      ("tags", tags (common_tags c) [("Name", vpc_name c)]) ]
    no_opts;
  igw ← new_resource "aws.ec2.InternetGateway" "eks-igw"
    [ ("vpc_id", Out vpc ["id"]);
      ("tags", tags (common_tags c) [("Name", "eks-igw")]) ]
    no_opts;
  (* public subnets *)
  az ← lift (subscript (availability_zones c) 0);
  public_subnet_1 ← new_resource "aws.ec2.Subnet" "eks-public-subnet-1"
    [ ("vpc_id", Out vpc ["id"]);
      ("cidr_block", str (public_subnet_1_cidr c));
      ("availability_zone", Lit az);
      ("map_public_ip_on_launch", bool_ true);
      ("tags", tags (common_tags c)
         [("Name", "eks-public-subnet-1"); ("Type", "Public")]) ]
    no_opts;
  az ← lift (subscript (availability_zones c) 1);
  public_subnet_2 ← new_resource "aws.ec2.Subnet" "eks-public-subnet-2"
    [ ("vpc_id", Out vpc ["id"]);
      ("cidr_block", str (public_subnet_2_cidr c));
      ("availability_zone", Lit az);
      ("map_public_ip_on_launch", bool_ true);
      ("tags", tags (common_tags c)
         [("Name", "eks-public-subnet-2"); ("Type", "Public")]) ]
    no_opts;
  (* private subnets *)
  az ← lift (subscript (availability_zones c) 0);
  private_subnet_1 ← new_resource "aws.ec2.Subnet" "eks-private-subnet-1"
    [ ("vpc_id", Out vpc ["id"]);
      ("cidr_block", str (private_subnet_1_cidr c));
      ("availability_zone", Lit az);
      ("tags", tags (common_tags c)
         [("Name", "eks-private-subnet-1"); ("Type", "Private")]) ]
    no_opts;
  az ← lift (subscript (availability_zones c) 1);
  private_subnet_2 ← new_resource "aws.ec2.Subnet" "eks-private-subnet-2"
    [ ("vpc_id", Out vpc ["id"]);
      ("cidr_block", str (private_subnet_2_cidr c));
      ("availability_zone", Lit az);
      ("tags", tags (common_tags c)
         [("Name", "eks-private-subnet-2"); ("Type", "Private")]) ]
    no_opts;
  (* elastic IPs for the NAT gateways *)
  eip_1 ← new_resource "aws.ec2.Eip" "eks-eip-1"
    [ ("vpc", bool_ true);
      ("tags", tags (common_tags c) [("Name", "eks-eip-1")]) ]
    no_opts;
  eip_2 ← new_resource "aws.ec2.Eip" "eks-eip-2"
    [ ("vpc", bool_ true);
      ("tags", tags (common_tags c) [("Name", "eks-eip-2")]) ]
    no_opts;
  (* NAT gateways *)
  nat_gateway_1 ← new_resource "aws.ec2.NatGateway" "eks-nat-gateway-1"
    [ ("subnet_id", Out public_subnet_1 ["id"]);
      ("allocation_id", Out eip_1 ["id"]);
      ("tags", tags (common_tags c) [("Name", "eks-nat-gateway-1")]) ]
    {| provider := None; depends_on := [igw] |};
  nat_gateway_2 ← new_resource "aws.ec2.NatGateway" "eks-nat-gateway-2"
    [ ("subnet_id", Out public_subnet_2 ["id"]);
      ("allocation_id", Out eip_2 ["id"]);
      ("tags", tags (common_tags c) [("Name", "eks-nat-gateway-2")]) ]
    {| provider := None; depends_on := [igw] |};
  (* route table of the public subnets *)
  public_route_table ← new_resource "aws.ec2.RouteTable" "eks-public-rt"
    [ ("vpc_id", Out vpc ["id"]);
      ("routes", Arr [ Obj [
         ("cidr_block", str "0.0.0.0/0");
         ("gateway_id", Out igw ["id"]) ] ]);
      ("tags", tags (common_tags c) [("Name", "eks-public-rt")]) ]
    no_opts;
  public_route_table_assoc_1 ←
    new_resource "aws.ec2.RouteTableAssociation" "eks-public-rta-1"
      [ ("subnet_id", Out public_subnet_1 ["id"]);
        ("route_table_id", Out public_route_table ["id"]) ]
      no_opts;
  public_route_table_assoc_2 ←
    new_resource "aws.ec2.RouteTableAssociation" "eks-public-rta-2"
      [ ("subnet_id", Out public_subnet_2 ["id"]);
        ("route_table_id", Out public_route_table ["id"]) ]
      no_opts;
  (* route tables of the private subnets *)
  private_route_table_1 ← new_resource "aws.ec2.RouteTable" "eks-private-rt-1"
    [ ("vpc_id", Out vpc ["id"]);
      ("routes", Arr [ Obj [
         ("cidr_block", str "0.0.0.0/0");
         ("nat_gateway_id", Out nat_gateway_1 ["id"]) ] ]);
      ("tags", tags (common_tags c) [("Name", "eks-private-rt-1")]) ]
    no_opts;
  private_route_table_2 ← new_resource "aws.ec2.RouteTable" "eks-private-rt-2"
    [ ("vpc_id", Out vpc ["id"]);
      ("routes", Arr [ Obj [
         ("cidr_block", str "0.0.0.0/0");
         ("nat_gateway_id", Out nat_gateway_2 ["id"]) ] ]);
      ("tags", tags (common_tags c) [("Name", "eks-private-rt-2")]) ]
    no_opts;
  private_route_table_assoc_1 ←
    new_resource "aws.ec2.RouteTableAssociation" "eks-private-rta-1"
      [ ("subnet_id", Out private_subnet_1 ["id"]);
        ("route_table_id", Out private_route_table_1 ["id"]) ]
      no_opts;
  private_route_table_assoc_2 ←
    new_resource "aws.ec2.RouteTableAssociation" "eks-private-rta-2"
      [ ("subnet_id", Out private_subnet_2 ["id"]);
        ("route_table_id", Out private_route_table_2 ["id"]) ]
      no_opts;
  (* IAM roles *)
  cluster_role ← new_resource "aws.iam.Role" (cluster_role_name c)
    [ ("assume_role_policy", str (json_dumps assume_role_policy));
      ("tags", tags (common_tags c) [("Name", cluster_role_name c)]) ]
    no_opts;
  cluster_role_policy_attachment ←
    new_resource "aws.iam.RolePolicyAttachment" "eks-cluster-policy"
      [ ("role", Out cluster_role ["name"]);
        ("policy_arn", str "arn:aws:iam::aws:policy/AmazonEKSClusterPolicy") ]
      no_opts;
  cluster_role_vpc_policy_attachment ←
    new_resource "aws.iam.RolePolicyAttachment" "eks-cluster-vpc-policy"
      [ ("role", Out cluster_role ["name"]);
        ("policy_arn",
         str "arn:aws:iam::aws:policy/AmazonEKSVPCResourceController") ]
      no_opts;
  node_role ← new_resource "aws.iam.Role" (node_role_name c)
    [ ("assume_role_policy", str (json_dumps node_assume_role_policy));
      ("tags", tags (common_tags c) [("Name", node_role_name c)]) ]
    no_opts;
  node_role_policy_attachment ←
    new_resource "aws.iam.RolePolicyAttachment" "eks-node-policy"
      [ ("role", Out node_role ["name"]);
        ("policy_arn",
         str "arn:aws:iam::aws:policy/AmazonEKSWorkerNodePolicy") ]
      no_opts;
  node_cni_policy_attachment ←
    new_resource "aws.iam.RolePolicyAttachment" "eks-cni-policy"
      [ ("role", Out node_role ["name"]);
        ("policy_arn", str "arn:aws:iam::aws:policy/AmazonEKS_CNI_Policy") ]
      no_opts;
  node_registry_policy_attachment ←
    new_resource "aws.iam.RolePolicyAttachment" "eks-registry-policy"
      [ ("role", Out node_role ["name"]);
        ("policy_arn",
         str "arn:aws:iam::aws:policy/AmazonEC2ContainerRegistryReadOnly") ]
      no_opts;
  (* security groups *)
  cluster_security_group ←
    new_resource "aws.ec2.SecurityGroup" "eks-cluster-sg"
      [ ("vpc_id", Out vpc ["id"]);
        ("description", str "Security group for EKS cluster");
        ("ingress", Arr [ Obj [
           ("protocol", str "tcp");
           ("from_port", int 443);
           ("to_port", int 443);
           ("cidr_blocks", Lit (PList [PStr "0.0.0.0/0"])) ] ]);
        ("egress", all_traffic_egress);
        ("tags", tags (common_tags c) [("Name", "eks-cluster-sg")]) ]
      no_opts;
  node_security_group ←
    new_resource "aws.ec2.SecurityGroup" "eks-node-sg"
      [ ("vpc_id", Out vpc ["id"]);
        ("description", str "Security group for EKS worker nodes");
        ("ingress", Arr [
           Obj [
             ("protocol", str "tcp");
             ("from_port", int 1025);
             ("to_port", int 65535);
             ("security_groups", Arr [Out cluster_security_group ["id"]]) ];
           Obj [
             ("protocol", str "tcp");
             ("from_port", int 443);
             ("to_port", int 443);
             ("security_groups", Arr [Out cluster_security_group ["id"]]) ] ]);
        ("egress", all_traffic_egress);
        ("tags", tags (common_tags c) [("Name", "eks-node-sg")]) ]
      no_opts;
  (* EKS cluster *)
  eks_cluster ← new_resource "aws.eks.Cluster" (cluster_name c)
    [ ("version", str (cluster_version c));
      ("role_arn", Out cluster_role ["arn"]);
      ("vpc_config", Obj [
         ("subnet_ids", Arr [
            Out public_subnet_1 ["id"];
            Out public_subnet_2 ["id"];
            Out private_subnet_1 ["id"];
            Out private_subnet_2 ["id"] ]);
         ("security_group_ids", Arr [Out cluster_security_group ["id"]]);
         ("endpoint_private_access", bool_ true);
         ("endpoint_public_access", bool_ true) ]);
      ("tags", tags (common_tags c) [("Name", cluster_name c)]) ]
    no_opts;
  (* EKS node group *)
  node_group ← new_resource "aws.eks.NodeGroup" (node_group_name c)
    [ ("cluster_name", Out eks_cluster ["name"]);
      ("node_group_name", str (node_group_name c));
      ("node_role_arn", Out node_role ["arn"]);
      ("subnet_ids", Arr [
         Out private_subnet_1 ["id"];
         Out private_subnet_2 ["id"] ]);
      ("scaling_config", Obj [
         ("desired_size", int (node_desired_count c));
         ("max_size", int (node_max_count c));
         ("min_size", int (node_min_count c)) ]);
      ("instance_types", Lit (PList [PStr (node_instance_type c)]));
      ("tags", tags (common_tags c) [("Name", node_group_name c)]) ]
    no_opts;
  (* outputs *)
  _ ← export "vpc_id" (Out vpc ["id"]);
  _ ← export "vpc_cidr" (Out vpc ["cidr_block"]);
  _ ← export "cluster_name" (Out eks_cluster ["name"]);
  _ ← export "cluster_endpoint" (Out eks_cluster ["endpoint"]);
  _ ← export "cluster_version" (Out eks_cluster ["version"]);
  _ ← export "cluster_arn" (Out eks_cluster ["arn"]);
  _ ← export "node_group_id" (Out node_group ["id"]);
  _ ← export "public_subnet_1_id" (Out public_subnet_1 ["id"]);
  _ ← export "public_subnet_2_id" (Out public_subnet_2 ["id"]);
  _ ← export "private_subnet_1_id" (Out private_subnet_1 ["id"]);
  _ ← export "private_subnet_2_id" (Out private_subnet_2 ["id"]);
  mret {|
    vpc := vpc; igw := igw;
    public_subnet_1 := public_subnet_1; public_subnet_2 := public_subnet_2;
    private_subnet_1 := private_subnet_1;
    private_subnet_2 := private_subnet_2;
    eip_1 := eip_1; eip_2 := eip_2;
    nat_gateway_1 := nat_gateway_1; nat_gateway_2 := nat_gateway_2;
    public_route_table := public_route_table;
    public_route_table_assoc_1 := public_route_table_assoc_1;
    public_route_table_assoc_2 := public_route_table_assoc_2;
    private_route_table_1 := private_route_table_1;
    private_route_table_2 := private_route_table_2;
    private_route_table_assoc_1 := private_route_table_assoc_1;
    private_route_table_assoc_2 := private_route_table_assoc_2;
    cluster_role := cluster_role;
    cluster_role_policy_attachment := cluster_role_policy_attachment;
    cluster_role_vpc_policy_attachment := cluster_role_vpc_policy_attachment;
    node_role := node_role;
    node_role_policy_attachment := node_role_policy_attachment;
    node_cni_policy_attachment := node_cni_policy_attachment;
    node_registry_policy_attachment := node_registry_policy_attachment;
    cluster_security_group := cluster_security_group;
    node_security_group := node_security_group;
    eks_cluster := eks_cluster;
    node_group := node_group;
  |}.

(** The whole program: [from config import ...] runs [config.py] first. *)
Definition program `{PyBuiltins} (cfg : Config) : M vars :=
  c ← lift (config.load cfg);
  declarations c.

End main.

(** ** The dependency graph induced by a registry *)

(** Resources whose outputs an argument reads. *)
Fixpoint refs (i : input) : list rid :=
  match i with
  | Lit _ => []
  | Out r _ => [r]
  | Obj fields => flat_map (fun kv => match kv with (_, v) => refs v end) fields
  | Arr items => flat_map refs items
  end.

Definition property_refs (r : Resource) : list rid :=
  flat_map (fun kv => refs (snd kv)) (rargs r).

Definition provider_ref (r : Resource) : list rid :=
  match provider (ropts r) with
  | Some p => [p]
  | None => []
  end.

(** All resources a declaration depends on: outputs read by its arguments,
    the explicit [depends_on] list, and its provider. *)
Definition dependencies (r : Resource) : list rid :=
  property_refs r ++ depends_on (ropts r) ++ provider_ref r.

(** [edge rs a b]: the resource declared at position [a] depends on [b]. *)
Definition edge (rs : list Resource) (a b : rid) : Prop :=
  exists r, rs !! a = Some r /\ In b (dependencies r).

(** Every dependency of every declaration was declared strictly earlier. *)
Definition declared_earlier (rs : list Resource) : Prop :=
  forall a b, edge rs a b -> (b < a)%nat.

(** The same, over the declarations from position [n] on, as a check. *)
Fixpoint check_earlier (n : nat) (rs : list Resource) : bool :=
  match rs with
  | [] => true
  | r :: rs' =>
      forallb (fun b => Nat.ltb b n) (dependencies r) && check_earlier (S n) rs'
  end.

Definition acyclic (rs : list Resource) : Prop :=
  forall a, ~ tc (edge rs) a a.

(** ** Reading a registry *)

Definition arg (r : Resource) (key : string) : option input :=
  dict_get (rargs r) key.

Definition tag (r : Resource) (key : string) : option pyval :=
  match arg r "tags" with
  | Some (Lit (PDict d)) => dict_get d key
  | _ => None
  end.

(** Positions of the declarations satisfying [p], in declaration order. *)
Fixpoint select_from (n : nat) (p : Resource -> bool) (rs : list Resource)
  : list rid :=
  match rs with
  | [] => []
  | r :: rs' =>
      if p r then n :: select_from (S n) p rs' else select_from (S n) p rs'
  end.

Definition select (p : Resource -> bool) (rs : list Resource) : list rid :=
  select_from 0 p rs.

Definition has_type (ty : string) (r : Resource) : bool :=
  String.eqb (rtype r) ty.

Definition is_subnet (kind : string) (r : Resource) : bool :=
  has_type "aws.ec2.Subnet" r &&
  match tag r "Type" with
  | Some (PStr k) => String.eqb k kind
  | _ => false
  end.

(** The route entries of a route table. *)
Definition routes (r : Resource) : list (list (string * input)) :=
  match arg r "routes" with
  | Some (Arr items) =>
      flat_map (fun i => match i with Obj f => [f] | _ => [] end) items
  | _ => []
  end.

(** The resource [x] of an argument written [x.id]. *)
Definition id_of (i : option input) : option rid :=
  match i with
  | Some (Out r ["id"]) => Some r
  | _ => None
  end.

(** NAT gateways that the routes of a table send traffic to. *)
Definition nat_targets (r : Resource) : list rid :=
  flat_map (fun route =>
    match id_of (dict_get route "nat_gateway_id") with
    | Some n => [n]
    | None => []
    end) (routes r).

(** A route table is private when one of its routes targets a NAT gateway. *)
Definition is_private_route_table (r : Resource) : bool :=
  has_type "aws.ec2.RouteTable" r &&
  match nat_targets r with [] => false | _ :: _ => true end.

Definition zone (rs : list Resource) (subnet : rid) : option input :=
  r ← rs !! subnet; arg r "availability_zone".

(** For an association [a]: every chain
    associated subnet, route table, NAT gateway routed to, subnet hosting
    that NAT gateway. *)
Definition nat_paths_of (rs : list Resource) (a : Resource)
  : list (rid * rid * rid * rid) :=
  match id_of (arg a "subnet_id"), id_of (arg a "route_table_id") with
  | Some s, Some t =>
      match rs !! t with
      | Some rt =>
          flat_map (fun n =>
            match rs !! n with
            | Some gw =>
                match id_of (arg gw "subnet_id") with
                | Some p => [(s, t, n, p)]
                | None => []
                end
            | None => []
            end) (nat_targets rt)
      | None => []
      end
  | _, _ => []
  end.

Definition nat_paths (rs : list Resource) : list (rid * rid * rid * rid) :=
  flat_map (fun a =>
    if has_type "aws.ec2.RouteTableAssociation" a then nat_paths_of rs a
    else []) rs.

(** The field [key] of the [spec] argument object of a declaration. *)
Definition spec_field (r : Resource) (key : string) : option input :=
  match arg r "spec" with
  | Some (Obj fields) => dict_get fields key
  | _ => None
  end.

(** ** Output resolution *)

(** Modelled from the spec: the error taxonomy of section 7, as far as graph
    build and output resolution raise it. *)
Inductive engine_error : Type :=
| DanglingReferenceError (node reference : string)
| CyclicDependencyError (nodes : list string)
| UnresolvedOutputError (key : string).

Inductive outcome (A : Type) : Type :=
| Done (a : A)
| Failed (e : engine_error).
Arguments Done {A} a.
Arguments Failed {A} e.

(** Modelled from the spec: the observed state of section 3, read after
    reconciliation.  A node that reached a successful terminal state reports
    its attributes; any other node reports nothing. *)
Definition Observed := rid -> option (list string -> pyval).

(** Modelled from the spec: the Output Exporter of section 4.4, which lives
    in the provisioning engine.  An output is resolved against the final
    attributes of its source node and fails with [UnresolvedOutputError]
    when that node never reached a successful terminal state. *)
Fixpoint resolve (obs : Observed) (key : string) (i : input) : outcome pyval :=
  match i with
  | Lit v => Done v
  | Out r path =>
      match obs r with
      | Some attrs => Done (attrs path)
      | None => Failed (UnresolvedOutputError key)
      end
  | Obj fields =>
      let fix go (l : list (string * input)) : outcome (list (string * pyval)) :=
        match l with
        | [] => Done []
        | (k, x) :: l' =>
            match resolve obs key x with
            | Failed e => Failed e
            | Done v =>
                match go l' with
                | Failed e => Failed e
                | Done vs => Done ((k, v) :: vs)
                end
            end
        end in
      match go fields with
      | Done vs => Done (PDict vs)
      | Failed e => Failed e
      end
  | Arr items =>
      let fix go (l : list input) : outcome (list pyval) :=
        match l with
        | [] => Done []
        | x :: l' =>
            match resolve obs key x with
            | Failed e => Failed e
            | Done v =>
                match go l' with
                | Failed e => Failed e
                | Done vs => Done (v :: vs)
                end
            end
        end in
      match go items with
      | Done vs => Done (PList vs)
      | Failed e => Failed e
      end
  end.

(** Modelled from the spec: the resolved value of the declared output
    [key] (section 4.4); [None] when the program exported no such key. *)
Definition resolve_output (obs : Observed) (outs : gmap string input)
    (key : string) : option (outcome pyval) :=
  resolve obs key <$> outs !! key.

(** ** Graph build

    The Dependency Graph Builder of section 4.1 of the spec and the
    fail-fast rule of its section 7.  The builder has no code in the
    repository. *)
Module engine.

(** Modelled from the spec: a Resource Node of section 3, reduced to what
    the builder reads: its logical name, the nodes its properties reference
    and its explicit ordering hints. *)
Record Node := {
  node_name : string;
  node_refs : list string;
  node_hints : list string;
}.

(** Modelled from the spec: the edges of section 4.1, one for each
    property reference and one for each explicit ordering hint. *)
Definition node_deps (n : Node) : list string :=
  node_refs n ++ node_hints n.

Definition names (decls : list Node) : list string :=
  map node_name decls.

(** Modelled from the spec: the input constraint of section 4.1, every
    property reference resolves to a declared node.  Returns the first
    offending node and reference. *)
Fixpoint first_dangling (declared : list string) (decls : list Node)
  : option (string * string) :=
  match decls with
  | [] => None
  | n :: decls' =>
      match List.find (fun r => negb (bool_decide (r ∈ declared)))
              (node_refs n) with
      | Some r => Some (node_name n, r)
      | None => first_dangling declared decls'
      end
  end.

(** Modelled from the spec: the readiness test of Kahn's algorithm
    (section 4.1).  A node has in-degree zero once all its dependencies
    were visited. *)
Definition ready (visited : list string) (n : Node) : bool :=
  forallb (fun d => bool_decide (d ∈ visited)) (node_deps n).

(** Modelled from the spec: the topological sort of section 4.1, Kahn's
    algorithm draining one layer of in-degree-zero nodes per round.  Returns
    the visit order and the nodes left unvisited. *)
Fixpoint kahn (rounds : nat) (pending : list Node) (visited : list string)
  : list string * list Node :=
  match rounds with
  | O => (visited, pending)
  | S rounds' =>
      match List.filter (ready visited) pending with
      | [] => (visited, pending)
      | layer =>
          kahn rounds'
            (List.filter (fun n => negb (ready visited n)) pending)
            (visited ++ names layer)
      end
  end.

(** Modelled from the spec: graph build (section 4.1).  Unresolved
    references fail with [DanglingReferenceError]; nodes left unvisited by
    the sort fail with [CyclicDependencyError], which reports their names. *)
Definition build_graph (decls : list Node) : outcome (list string) :=
  match first_dangling (names decls) decls with
  | Some (n, r) => Failed (DanglingReferenceError n r)
  | None =>
      match kahn (length decls) decls [] with
      | (order, []) => Done order
      | (_, unvisited) => Failed (CyclicDependencyError (names unvisited))
      end
  end.

(** Modelled from the spec: one reconciliation pass over a store of
    observed state of type [S] (section 7).  Graph-build errors abort the run
    before [apply], the engine's apply phase, touches the store. *)
Definition run {S : Type} (apply : list string -> S -> S)
    (decls : list Node) (observed : S) : outcome (list string) * S :=
  match build_graph decls with
  | Done order => (Done order, apply order observed)
  | Failed e => (Failed e, observed)
  end.

(** [depends decls a b]: the node named [a] references or is ordered
    after the node named [b]. *)
Definition depends (decls : list Node) (a b : string) : Prop :=
  exists n, In n decls /\ node_name n = a /\ In b (node_deps n).

Definition on_cycle (decls : list Node) (a : string) : Prop :=
  tc (depends decls) a a.

Definition has_cycle (decls : list Node) : Prop :=
  exists a, on_cycle decls a.

Definition no_dangling (decls : list Node) : Prop :=
  forall n r, In n decls -> In r (node_refs n) -> In r (names decls).

(** What the rounds of [kahn] preserve: pending nodes are declared, no
    visited name is on a cycle, and every declared node is pending or
    visited. *)
Definition kahn_inv (decls pending : list Node) (visited : list string)
  : Prop :=
  (forall n, In n pending -> In n decls) /\
  (forall a, In a visited -> ~ on_cycle decls a) /\
  (forall n, In n decls -> In n pending \/ In (node_name n) visited).

End engine.

(** ** An executable instance of the Python builtins

    Enough of [int], [json.loads] and [json.dumps] to run the program on
    concrete stores: decimal integers with an optional sign, and JSON made of
    [null], booleans, integers, strings without escapes, and arrays.  The
    theorems below hold for every instance; this one serves the examples. *)
Module sample.

Definition dq : ascii := "034"%char.

Definition digit (c : ascii) : option Z :=
  let n := Z.of_nat (nat_of_ascii c) in
  if ((48 <=? n) && (n <=? 57))%Z then Some (n - 48) else None.

Fixpoint digits (acc : Z) (cs : list ascii) : option Z :=
  match cs with
  | [] => Some acc
  | c :: cs' =>
      match digit c with
      | Some d => digits (10 * acc + d) cs'
      | None => None
      end
  end.

Definition int_of_chars (cs : list ascii) : option Z :=
  match cs with
  | [] => None
  | "-"%char :: (_ :: _) as ds => Z.opp <$> digits 0 ds
  | "+"%char :: (_ :: _) as ds => digits 0 ds
  | "-"%char :: [] | "+"%char :: [] => None
  | _ => digits 0 cs
  end.

Definition int_of_str (s : string) : option Z :=
  int_of_chars (list_ascii_of_string s).

Fixpoint skip_ws (cs : list ascii) : list ascii :=
  match cs with
  | " "%char :: cs' => skip_ws cs'
  | _ => cs
  end.

(** Characters up to the closing quote. *)
Fixpoint read_string (acc : list ascii) (cs : list ascii)
  : option (string * list ascii) :=
  match cs with
  | [] => None
  | c :: cs' =>
      if Ascii.eqb c dq then Some (string_of_list_ascii (rev acc), cs')
      else if Ascii.eqb c "\"%char then None
      else read_string (c :: acc) cs'
  end.

(** The longest prefix of sign and digit characters. *)
Fixpoint span_number (cs : list ascii) : list ascii * list ascii :=
  match cs with
  | c :: cs' =>
      if Ascii.eqb c "-"%char || bool_decide (is_Some (digit c)) then
        let '(n, rest) := span_number cs' in (c :: n, rest)
      else ([], cs)
  | [] => ([], [])
  end.

Fixpoint parse_value (fuel : nat) (cs : list ascii)
  : option (pyval * list ascii) :=
  match fuel with
  | O => None
  | S fuel' =>
      match skip_ws cs with
      | "n"%char :: "u"%char :: "l"%char :: "l"%char :: rest =>
          Some (PNone, rest)
      | "t"%char :: "r"%char :: "u"%char :: "e"%char :: rest =>
          Some (PBool true, rest)
      | "f"%char :: "a"%char :: "l"%char :: "s"%char :: "e"%char :: rest =>
          Some (PBool false, rest)
      | "["%char :: rest =>
          match skip_ws rest with
          | "]"%char :: rest' => Some (PList [], rest')
          | _ =>
              '(items, rest') ← parse_items fuel' rest;
              Some (PList items, rest')
          end
      | c :: rest =>
          if Ascii.eqb c dq then
            '(s, rest') ← read_string [] rest;
            Some (PStr s, rest')
          else
            let '(num, rest') := span_number (c :: rest) in
            n ← int_of_chars num;
            Some (PInt n, rest')
      | [] => None
      end
  end
with parse_items (fuel : nat) (cs : list ascii)
  : option (list pyval * list ascii) :=
  match fuel with
  | O => None
  | S fuel' =>
      '(v, rest) ← parse_value fuel' cs;
      match skip_ws rest with
      | ","%char :: rest' =>
          '(vs, rest'') ← parse_items fuel' rest';
          Some (v :: vs, rest'')
      | "]"%char :: rest' => Some ([v], rest')
      | _ => None
      end
  end.

Definition loads (s : string) : option pyval :=
  let cs := list_ascii_of_string s in
  '(v, rest) ← parse_value (S (length cs)) cs;
  match skip_ws rest with
  | [] => Some v
  | _ => None
  end.

Definition quoted (s : string) : string :=
  String dq (s ++ String dq EmptyString).

Definition join (sep : string) (parts : list string) : string :=
  match parts with
  | [] => EmptyString
  | p :: ps => fold_left (fun acc x => acc ++ sep ++ x) ps p
  end.

Fixpoint dumps (v : pyval) : string :=
  match v with
  | PNone => "null"
  | PBool true => "true"
  | PBool false => "false"
  | PInt n => pretty n
  | PFloat (S754_zero false) => "0.0"
  | PFloat (S754_zero true) => "-0.0"
  | PFloat (S754_infinity false) => "Infinity"
  | PFloat (S754_infinity true) => "-Infinity"
  | PFloat S754_nan => "NaN"
  | PFloat (S754_finite sign m e) =>
      (* not Python's shortest decimal form; no example prints a float *)
      (if sign then "-" else EmptyString) ++ pretty (Z.pos m) ++ "*2**" ++ pretty e
  | PStr s => quoted s
  | PList l => "[" ++ join ", " (map dumps l) ++ "]"
  | PDict d =>
      "{" ++ join ", "
        (map (fun kv => match kv with
                        | (k, x) => quoted k ++ ": " ++ dumps x
                        end) d) ++ "}"
  end.

#[export] Instance builtins : PyBuiltins := {|
  py_int := int_of_str;
  json_loads := loads;
  json_dumps := dumps;
|}.

(** A state of the module variables of [hpa.py] for the examples: the
    literal that stands at the right of each [or]. *)
Definition hpa_state : hpa_config.globals :=
  {| hpa_config.enable_hpa := true;
     hpa_config.hpa_min_replicas := 2;
     hpa_config.hpa_max_replicas := 10;
     hpa_config.hpa_cpu_threshold := 70;
     hpa_config.hpa_memory_threshold := 80;
     hpa_config.demo_namespace := "default";
     hpa_config.demo_app_name := "demo-app";
     hpa_config.demo_app_image := "nginx:latest";
     hpa_config.demo_app_replicas := 2;
     hpa_config.demo_app_port := 80;
     hpa_config.common_tags :=
       [("ManagedBy", PStr "Pulumi"); ("Component", PStr "HPA")] |}.

End sample.

(** ** Well-typed stores

    The options read with [get_int]. *)
Definition int_options : list string :=
  [ "node_desired_count"; "node_min_count"; "node_max_count";
    "hpa_min_replicas"; "hpa_max_replicas"; "hpa_cpu_threshold";
    "hpa_memory_threshold"; "demo_app_replicas"; "demo_app_port" ].

(** The options read with [get]. *)
Definition string_options : list string :=
  [ "vpc_name"; "vpc_cidr"; "private_subnet_1_cidr"; "private_subnet_2_cidr";
    "public_subnet_1_cidr"; "public_subnet_2_cidr"; "cluster_name";
    "cluster_version"; "cluster_role_name"; "node_group_name";
    "node_instance_type"; "node_role_name"; "aws_region"; "environment";
    "project"; "demo_namespace"; "demo_app_name"; "demo_app_image" ].

(** The options that [config.py] reads with [get_int]. *)
Definition config_int_options : list string :=
  [ "node_desired_count"; "node_min_count"; "node_max_count" ].

(** What makes the typed accessors of [config.py] succeed: the node counts
    that the store holds are integers and the zones it holds are JSON.  The
    keys of [hpa.py] play no part. *)
Definition config_typed `{PyBuiltins} (cfg : Config) : Prop :=
  (forall k v, In k config_int_options -> cfg !! k = Some v ->
               is_Some (py_int v)) /\
  (forall v, cfg !! "availability_zones" = Some v -> is_Some (json_loads v)).

(** Two results of a configuration accessor that no fallback [x or d] can
    tell apart. *)
Definition agree {A} `{Truthy A} (x y : exc (option A)) : Prop :=
  match x, y with
  | Ok a, Ok b => forall d, py_or a d = py_or b d
  | Raise e1, Raise e2 => e1 = e2
  | _, _ => False
  end.

(** ** The keys of the settings modules *)

(** The keys [config.py] reads, in source order. *)
Definition config_keys : list string :=
  [ "vpc_name"; "vpc_cidr"; "availability_zones"; "private_subnet_1_cidr";
    "private_subnet_2_cidr"; "public_subnet_1_cidr"; "public_subnet_2_cidr";
    "cluster_name"; "cluster_version"; "cluster_role_name"; "node_group_name";
    "node_desired_count"; "node_min_count"; "node_max_count";
    "node_instance_type"; "node_role_name"; "aws_region"; "environment";
    "project" ].

(** The keys [hpa.py] reads, in source order. *)
Definition hpa_keys : list string :=
  [ "enable_hpa"; "hpa_min_replicas"; "hpa_max_replicas"; "hpa_cpu_threshold";
    "hpa_memory_threshold"; "demo_namespace"; "demo_app_name";
    "demo_app_image"; "demo_app_replicas"; "demo_app_port" ].

(** Whether the accessor that the modules apply to [key] accepts the stored
    text: [get_object] for the zones, [get_bool] for [enable_hpa], [get_int]
    for the integer options, and [get], which accepts anything, otherwise. *)
Definition accepts `{PyBuiltins} (key value : string) : bool :=
  if String.eqb key "availability_zones" then
    match json_loads value with Some _ => true | None => false end
  else if String.eqb key "enable_hpa" then
    existsb (String.eqb value) ["true"; "True"; "false"; "False"]
  else if existsb (String.eqb key) int_options then
    match py_int value with Some _ => true | None => false end
  else true.

(** The first of [keys] whose stored text its accessor rejects. *)
Definition first_rejected `{PyBuiltins} (cfg : Config) (keys : list string)
  : option string :=
  List.find (fun k =>
    match cfg !! k with
    | Some v => negb (accepts k v)
    | None => false
    end) keys.

(** Module variables assigned from [get], by key. *)
Definition config_string_fields : list (string * (config.globals -> string)) :=
  [ ("vpc_name", config.vpc_name);
    ("vpc_cidr", config.vpc_cidr);
    ("private_subnet_1_cidr", config.private_subnet_1_cidr);
    ("private_subnet_2_cidr", config.private_subnet_2_cidr);
    ("public_subnet_1_cidr", config.public_subnet_1_cidr);
    ("public_subnet_2_cidr", config.public_subnet_2_cidr);
    ("cluster_name", config.cluster_name);
    ("cluster_version", config.cluster_version);
    ("cluster_role_name", config.cluster_role_name);
    ("node_group_name", config.node_group_name);
    ("node_instance_type", config.node_instance_type);
    ("node_role_name", config.node_role_name);
    ("aws_region", config.aws_region) ].

(** Module variables assigned from [get_int], by key. *)
Definition config_int_fields : list (string * (config.globals -> Z)) :=
  [ ("node_desired_count", config.node_desired_count);
    ("node_min_count", config.node_min_count);
    ("node_max_count", config.node_max_count) ].

(** ** More ways to read a registry *)

Definition has_arg (key : string) (r : Resource) : bool :=
  match arg r key with Some _ => true | None => false end.

(** Follows field names into nested argument objects. *)
Fixpoint walk (i : input) (path : list string) : option input :=
  match path with
  | [] => Some i
  | k :: path' =>
      match i with
      | Obj fields =>
          match dict_get fields k with
          | Some x => walk x path'
          | None => None
          end
      | _ => None
      end
  end.

(** The argument reached by [path], e.g. [["spec"; "replicas"]]. *)
Definition arg_at (r : Resource) (path : list string) : option input :=
  match path with
  | [] => None
  | k :: path' =>
      match arg r k with
      | Some x => walk x path'
      | None => None
      end
  end.

(** The resources of a list argument written [[a.id, b.id, ...]]. *)
Definition ids_of (i : option input) : list rid :=
  match i with
  | Some (Arr items) =>
      flat_map (fun x => match id_of (Some x) with
                         | Some r => [r]
                         | None => []
                         end) items
  | _ => []
  end.

(** What the engine identifies a declaration by: its class and its logical
    name. *)
Definition urn (r : Resource) : string * string := (rtype r, rname r).

(** The declarations that no declaration depends on. *)
Definition unreferenced (rs : list Resource) : list rid :=
  List.filter
    (fun i => forallb (fun r => negb (existsb (Nat.eqb i) (dependencies r))) rs)
    (seq 0 (length rs)).

(** Subnet and route table of every route table association. *)
Definition associations (rs : list Resource) : list (rid * rid) :=
  flat_map (fun a =>
    if has_type "aws.ec2.RouteTableAssociation" a then
      match id_of (arg a "subnet_id"), id_of (arg a "route_table_id") with
      | Some s, Some t => [(s, t)]
      | _, _ => []
      end
    else []) rs.

(** The policies attached to [role] by the role policy attachments. *)
Definition attached_policies (rs : list Resource) (role : rid)
  : list (option input) :=
  flat_map (fun a =>
    if has_type "aws.iam.RolePolicyAttachment" a then
      match arg a "role" with
      | Some (Out r ["name"]) =>
          if Nat.eqb r role then [arg a "policy_arn"] else []
      | _ => []
      end
    else []) rs.

(** The rule objects of a list argument such as [ingress] or [egress]. *)
Definition rules (r : Resource) (key : string) : list (list (string * input)) :=
  match arg r key with
  | Some (Arr items) =>
      flat_map (fun i => match i with Obj f => [f] | _ => [] end) items
  | _ => []
  end.

(** The declarations that depend on [b]. *)
Definition dependents (rs : list Resource) (b : rid) : list rid :=
  select (fun r => existsb (Nat.eqb b) (dependencies r)) rs.

(** The settings of [config.py] with another value for the zones. *)
Definition with_zones (c : config.globals) (zones : pyval) : config.globals :=
  {| config.vpc_name := config.vpc_name c;
     config.vpc_cidr := config.vpc_cidr c;
     config.availability_zones := zones;
     config.private_subnet_1_cidr := config.private_subnet_1_cidr c;
     config.private_subnet_2_cidr := config.private_subnet_2_cidr c;
     config.public_subnet_1_cidr := config.public_subnet_1_cidr c;
     config.public_subnet_2_cidr := config.public_subnet_2_cidr c;
     config.cluster_name := config.cluster_name c;
     config.cluster_version := config.cluster_version c;
     config.cluster_role_name := config.cluster_role_name c;
     config.node_group_name := config.node_group_name c;
     config.node_desired_count := config.node_desired_count c;
     config.node_min_count := config.node_min_count c;
     config.node_max_count := config.node_max_count c;
     config.node_instance_type := config.node_instance_type c;
     config.node_role_name := config.node_role_name c;
     config.aws_region := config.aws_region c;
     config.common_tags := config.common_tags c |}.

(** * Properties *)

Section GraphFacts.

Lemma check_earlier_sound n rs :
  check_earlier n rs = true ->
  forall i r b, rs !! i = Some r -> In b (dependencies r) -> (b < n + i)%nat.
Proof.
  revert n. induction rs as [|r0 rs IH]; intros n Hc i r b Hi Hb.
  - destruct i; discriminate.
  - simpl in Hc. apply andb_prop in Hc as [Hhd Htl].
    destruct i as [|i]; simpl in Hi.
    + injection Hi as ->. rewrite forallb_forall in Hhd.
      apply Hhd, Nat.ltb_lt in Hb. lia.
    + specialize (IH (S n) Htl i r b Hi Hb). lia.
Qed.

Lemma check_declared_earlier rs :
  check_earlier 0 rs = true -> declared_earlier rs.
Proof.
  intros Hc a b (r & Ha & Hb).
  apply (check_earlier_sound 0 rs Hc a r b Ha Hb).
Qed.

Lemma declared_earlier_path rs a b :
  declared_earlier rs -> tc (edge rs) a b -> (b < a)%nat.
Proof.
  intros Hrs Hab. induction Hab as [a b Hab | a m b Ham _ IH].
  - by apply Hrs.
  - apply Hrs in Ham. lia.
Qed.

Lemma declared_earlier_acyclic rs : declared_earlier rs -> acyclic rs.
Proof.
  intros Hrs a Haa. apply (declared_earlier_path rs a a Hrs) in Haa. lia.
Qed.

Lemma declared_earlier_snoc rs r :
  declared_earlier rs ->
  Forall (fun b => (b < length rs)%nat) (dependencies r) ->
  declared_earlier (rs ++ [r]).
Proof.
  intros Hrs Hr a b (r' & Ha & Hb).
  destruct (decide (a < length rs)%nat) as [Hlt | Hge].
  - rewrite lookup_app_l in Ha by done. apply Hrs. by exists r'.
  - rewrite lookup_app_r in Ha by lia.
    destruct (a - length rs)%nat as [|k] eqn:Hk; simpl in Ha; [|by destruct k].
    injection Ha as <-. rewrite Forall_forall in Hr.
    apply list_elem_of_In, Hr in Hb. lia.
Qed.

End GraphFacts.

(** A finite map is the one listed by a table without duplicate keys when
    it has as many entries and contains every listed one. *)
Lemma map_of_table {A} (m : gmap string A) (table : list (string * A)) :
  NoDup table.*1 ->
  size m = length table ->
  Forall (fun kv => m !! kv.1 = Some kv.2) table ->
  m = list_to_map table.
Proof.
  intros Hnd Hsz Hall. symmetry. apply map_subseteq_size_eq.
  - apply map_subseteq_spec. intros i x Hi.
    apply elem_of_list_to_map_2 in Hi. rewrite Forall_forall in Hall.
    apply (Hall (i, x) Hi).
  - rewrite map_size_list_to_map by done. lia.
Qed.


Section MainProgram.
Context `{PyBuiltins}.
Import config main.

Lemma load_common_tags cfg c :
  config.load cfg = Ok c ->
  exists env proj,
    common_tags c =
      [ ("Environment", PStr env); ("Project", PStr proj);
        ("CreatedBy", PStr "Pulumi") ].
Proof.
  unfold config.load. intros Hload.
  destruct (get_object cfg "availability_zones"); [|discriminate].
  destruct (get_int cfg "node_desired_count"); [|discriminate].
  destruct (get_int cfg "node_min_count"); [|discriminate].
  destruct (get_int cfg "node_max_count"); [|discriminate].
  injection Hload as <-. simpl. eauto.
Qed.

Lemma program_loaded cfg c st :
  config.load cfg = Ok c -> program cfg st = declarations c st.
Proof. intros Hload. unfold program, mbind, M_bind, lift. by rewrite Hload. Qed.

Lemma program_load_error cfg e st :
  config.load cfg = Raise e -> program cfg st = (Raise e, st).
Proof. intros Hload. unfold program, mbind, M_bind, lift. by rewrite Hload. Qed.

End MainProgram.

(** ** The main program *)

(** Reduces a goal [exists v st, program cfg empty_stack = (Ok v, st) /\ _]
    to its second part, once the settings loaded and both zone subscripts
    succeeded: the declarations are run by computation. *)
Ltac enter_program c Hload H0 H1 :=
  let env := fresh "env" in
  let proj := fresh "proj" in
  let Htags := fresh "Htags" in
  destruct (load_common_tags _ _ Hload) as (env & proj & Htags);
  rewrite (program_loaded _ _ _ Hload); clear Hload;
  revert H0 H1 Htags;
  unfold main.declarations;
  generalize (subscript (config.availability_zones c) 0),
             (subscript (config.availability_zones c) 1),
             (config.common_tags c);
  intros ? ? ? -> -> ->;
  lazymatch goal with
  | |- exists v st, ?run = _ /\ _ =>
      let r := eval vm_compute in (fst run) in
      lazymatch r with
      | Ok ?v0 =>
          exists v0, (snd run); split; [vm_compute; reflexivity | cbv zeta]
      end
  end.

Section MainClaims.
Context `{PyBuiltins}.
Import config main.

(** C1. Declaring the network yields exactly two public and two private
    subnets, one NAT gateway in each public subnet and exactly two private
    route tables; private route table i has the single route 0.0.0.0/0 to
    NAT gateway i, which sits in public subnet i, and the private subnet
    associated with that table lies in the same availability zone
    ([availability_zones[i-1]]) as public subnet i. *)
Theorem network_zone_pairing cfg c z0 z1 :
  config.load cfg = Ok c ->
  subscript (availability_zones c) 0 = Ok z0 ->
  subscript (availability_zones c) 1 = Ok z1 ->
  exists v st,
    program cfg empty_stack = (Ok v, st) /\
    let rs := resources st in
    select (has_type "aws.ec2.Subnet") rs =
      [public_subnet_1 v; public_subnet_2 v;
       private_subnet_1 v; private_subnet_2 v] /\
    select (is_subnet "Public") rs = [public_subnet_1 v; public_subnet_2 v] /\
    select (is_subnet "Private") rs =
      [private_subnet_1 v; private_subnet_2 v] /\
    select (has_type "aws.ec2.NatGateway") rs =
      [nat_gateway_1 v; nat_gateway_2 v] /\
    select is_private_route_table rs =
      [private_route_table_1 v; private_route_table_2 v] /\
    routes <$> rs !! private_route_table_1 v =
      Some [[("cidr_block", str "0.0.0.0/0");
             ("nat_gateway_id", Out (nat_gateway_1 v) ["id"])]] /\
    routes <$> rs !! private_route_table_2 v =
      Some [[("cidr_block", str "0.0.0.0/0");
             ("nat_gateway_id", Out (nat_gateway_2 v) ["id"])]] /\
    nat_paths rs =
      [(private_subnet_1 v, private_route_table_1 v,
        nat_gateway_1 v, public_subnet_1 v);
       (private_subnet_2 v, private_route_table_2 v,
        nat_gateway_2 v, public_subnet_2 v)] /\
    zone rs (public_subnet_1 v) = Some (Lit z0) /\
    zone rs (private_subnet_1 v) = Some (Lit z0) /\
    zone rs (public_subnet_2 v) = Some (Lit z1) /\
    zone rs (private_subnet_2 v) = Some (Lit z1).
Proof.
  intros Hload H0 H1. enter_program c Hload H0 H1.
  repeat apply conj; vm_compute; reflexivity.
Qed.

(** C4. The outputs of the main program are a flat map from key to
    resource attribute: the VPC id and CIDR, the four subnet ids, the
    cluster name, endpoint, version and ARN, and the node group id; the
    value resolved for [cluster_endpoint] is the endpoint attribute that
    the provider reports for the cluster. *)
Theorem exported_outputs cfg c z0 z1 :
  config.load cfg = Ok c ->
  subscript (availability_zones c) 0 = Ok z0 ->
  subscript (availability_zones c) 1 = Ok z1 ->
  exists v st,
    program cfg empty_stack = (Ok v, st) /\
    outputs st = list_to_map [
      ("vpc_id", Out (vpc v) ["id"]);
      ("vpc_cidr", Out (vpc v) ["cidr_block"]);
      ("cluster_name", Out (eks_cluster v) ["name"]);
      ("cluster_endpoint", Out (eks_cluster v) ["endpoint"]);
      ("cluster_version", Out (eks_cluster v) ["version"]);
      ("cluster_arn", Out (eks_cluster v) ["arn"]);
      ("node_group_id", Out (node_group v) ["id"]);
      ("public_subnet_1_id", Out (public_subnet_1 v) ["id"]);
      ("public_subnet_2_id", Out (public_subnet_2 v) ["id"]);
      ("private_subnet_1_id", Out (private_subnet_1 v) ["id"]);
      ("private_subnet_2_id", Out (private_subnet_2 v) ["id"]) ] /\
    rtype <$> resources st !! vpc v = Some "aws.ec2.Vpc" /\
    rtype <$> resources st !! eks_cluster v = Some "aws.eks.Cluster" /\
    rtype <$> resources st !! node_group v = Some "aws.eks.NodeGroup" /\
    select (has_type "aws.ec2.Subnet") (resources st) =
      [public_subnet_1 v; public_subnet_2 v;
       private_subnet_1 v; private_subnet_2 v] /\
    forall (obs : Observed) attrs,
      obs (eks_cluster v) = Some attrs ->
      resolve_output obs (outputs st) "cluster_endpoint" =
        Some (Done (attrs ["endpoint"])).
Proof.
  intros Hload H0 H1. enter_program c Hload H0 H1.
  split.
  { apply map_of_table.
    - apply (bool_decide_unpack _). vm_compute. exact I.
    - vm_compute. reflexivity.
    - repeat (apply List.Forall_cons; [vm_compute; reflexivity|]).
      apply List.Forall_nil. }
  do 4 (split; [vm_compute; reflexivity|]).
  intros obs attrs Hobs. unfold resolve_output.
  match goal with
  | |- _ <$> ?l = _ =>
      replace l with (Some (Out 26%nat ["endpoint"]))
        by (vm_compute; reflexivity)
  end.
  simpl in Hobs |- *. by rewrite Hobs.
Qed.

(** C7. Both NAT gateway declarations list the internet gateway in
    [depends_on], although their arguments read only a public subnet and
    an Elastic IP: no argument reads an output of the internet gateway. *)
Theorem nat_gateways_depend_on_igw cfg c z0 z1 :
  config.load cfg = Ok c ->
  subscript (availability_zones c) 0 = Ok z0 ->
  subscript (availability_zones c) 1 = Ok z1 ->
  exists v st,
    program cfg empty_stack = (Ok v, st) /\
    let rs := resources st in
    rtype <$> rs !! igw v = Some "aws.ec2.InternetGateway" /\
    select (has_type "aws.ec2.NatGateway") rs =
      [nat_gateway_1 v; nat_gateway_2 v] /\
    (depends_on ∘ ropts) <$> rs !! nat_gateway_1 v = Some [igw v] /\
    (depends_on ∘ ropts) <$> rs !! nat_gateway_2 v = Some [igw v] /\
    (fun r => (arg r "subnet_id", arg r "allocation_id", map fst (rargs r)))
      <$> rs !! nat_gateway_1 v =
      Some (Some (Out (public_subnet_1 v) ["id"]),
            Some (Out (eip_1 v) ["id"]),
            ["subnet_id"; "allocation_id"; "tags"]) /\
    (fun r => (arg r "subnet_id", arg r "allocation_id", map fst (rargs r)))
      <$> rs !! nat_gateway_2 v =
      Some (Some (Out (public_subnet_2 v) ["id"]),
            Some (Out (eip_2 v) ["id"]),
            ["subnet_id"; "allocation_id"; "tags"]) /\
    property_refs <$> rs !! nat_gateway_1 v =
      Some [public_subnet_1 v; eip_1 v] /\
    property_refs <$> rs !! nat_gateway_2 v =
      Some [public_subnet_2 v; eip_2 v] /\
    ~ In (igw v) [public_subnet_1 v; eip_1 v; public_subnet_2 v; eip_2 v].
Proof.
  intros Hload H0 H1. enter_program c Hload H0 H1.
  do 8 (split; [vm_compute; reflexivity|]).
  vm_compute. intuition discriminate.
Qed.

Lemma program_declared_earlier cfg :
  declared_earlier (resources (snd (program cfg empty_stack))).
Proof.
  apply check_declared_earlier.
  destruct (config.load cfg) as [c|e] eqn:Hload.
  - rewrite (program_loaded _ _ _ Hload). unfold declarations.
    destruct (subscript (availability_zones c) 0);
      destruct (subscript (availability_zones c) 1);
      vm_compute; reflexivity.
  - by rewrite (program_load_error _ _ _ Hload).
Qed.

End MainClaims.

(** ** The HPA demo *)

(** Runs the statements of [hpa.py] on a stack given by its fields. *)
Ltac run_hpa :=
  cbv beta iota zeta delta
    [hpa.setup_hpa_infrastructure hpa.create_metrics_server
     hpa.create_demo_deployment hpa.create_demo_service hpa.create_hpa
     negb mbind mret M_bind M_ret new_resource export info lift getattr
     resources outputs infos].

Section HpaClaims.
Import hpa_config hpa.

Lemma py_or_true (en : option bool) : py_or en true = true.
Proof. by destruct en as [[|]|]. Qed.

(** C5. The autoscaler declared by [create_hpa] takes [min_replicas] and
    [max_replicas] from the module variables [hpa_min_replicas] and
    [hpa_max_replicas], has exactly two [Resource] metrics, CPU and memory,
    whose average-utilization targets are [hpa_cpu_threshold] and
    [hpa_memory_threshold], and its scale target is the deployment that was
    passed in.  With [enable_hpa] false no autoscaler is declared. *)
Theorem hpa_follows_configuration g deployment prov st :
  if enable_hpa g then
    exists r,
      create_hpa g deployment prov st =
        (Ok (Some (length (resources st))),
         {| resources := resources st ++ [r];
            outputs := outputs st;
            infos := infos st |}) /\
      rtype r = "k8s.autoscaling.v2.HorizontalPodAutoscaler" /\
      provider (ropts r) = Some prov /\
      depends_on (ropts r) = [deployment] /\
      map fst (rargs r) = ["metadata"; "spec"] /\
      spec_field r "min_replicas" = Some (int (hpa_min_replicas g)) /\
      spec_field r "max_replicas" = Some (int (hpa_max_replicas g)) /\
      spec_field r "metrics" = Some (Lit (PList [
        PDict [
          ("type", PStr "Resource");
          ("resource", PDict [
             ("name", PStr "cpu");
             ("target", PDict [
                ("type", PStr "Utilization");
                ("averageUtilization", PInt (hpa_cpu_threshold g)) ]) ]) ];
        PDict [
          ("type", PStr "Resource");
          ("resource", PDict [
             ("name", PStr "memory");
             ("target", PDict [
                ("type", PStr "Utilization");
                ("averageUtilization", PInt (hpa_memory_threshold g)) ]) ]) ]
        ])) /\
      spec_field r "scale_target_ref" = Some (Obj [
        ("apiVersion", str "apps/v1");
        ("kind", str "Deployment");
        ("name", Out deployment ["metadata"; "name"]) ])
  else
    create_hpa g deployment prov st = (Ok None, st).
Proof.
  destruct st as [rs outs msgs].
  destruct (enable_hpa g) eqn:Hen; run_hpa; rewrite Hen; [|reflexivity].
  eexists. split; [reflexivity|]. by repeat split.
Qed.

(** C6. With the demo enabled, [setup_hpa_infrastructure] declares the
    metrics-server chart, the demo deployment, its service and the
    autoscaler, and returns a dict with exactly the deployment, service and
    autoscaler names and the four thresholds; with the demo disabled it
    declares nothing and returns the empty dict. *)
Theorem setup_hpa_infrastructure_result g provider st :
  let n := length (resources st) in
  if enable_hpa g then
    exists chart deployment service autoscaler,
      setup_hpa_infrastructure g provider st =
        (Ok [ ("deployment_name", Out (n + 1)%nat ["metadata"; "name"]);
              ("service_name", Out (n + 2)%nat ["metadata"; "name"]);
              ("hpa_name", Out (n + 3)%nat ["metadata"; "name"]);
              ("hpa_min_replicas", int (hpa_min_replicas g));
              ("hpa_max_replicas", int (hpa_max_replicas g));
              ("hpa_cpu_threshold", int (hpa_cpu_threshold g));
              ("hpa_memory_threshold", int (hpa_memory_threshold g)) ],
         {| resources :=
              resources st ++ [chart; deployment; service; autoscaler];
            outputs := <["metrics_server_chart" := Lit PNone]> (outputs st);
            infos := infos st |}) /\
      (rtype chart, rname chart) = ("k8s.helm.v3.Chart", "metrics-server") /\
      (rtype deployment, rname deployment) =
        ("k8s.apps.v1.Deployment", demo_app_name g) /\
      (rtype service, rname service) =
        ("k8s.core.v1.Service", demo_app_name g ++ "-service") /\
      (rtype autoscaler, rname autoscaler) =
        ("k8s.autoscaling.v2.HorizontalPodAutoscaler",
         demo_app_name g ++ "-hpa") /\
      spec_field deployment "selector" = Some (Obj [
        ("match_labels", Lit (PDict [("app", PStr (demo_app_name g))])) ]) /\
      spec_field service "selector" =
        Some (Lit (PDict [("app", PStr (demo_app_name g))])) /\
      spec_field autoscaler "scale_target_ref" = Some (Obj [
        ("apiVersion", str "apps/v1");
        ("kind", str "Deployment");
        ("name", Out (n + 1)%nat ["metadata"; "name"]) ])
  else
    setup_hpa_infrastructure g provider st =
      (Ok [],
       {| resources := resources st;
          outputs := outputs st;
          infos := infos st ++ ["HPA is disabled. Skipping HPA setup."] |}).
Proof.
  destruct st as [rs outs msgs]. cbv zeta.
  destruct (enable_hpa g) eqn:Hen; run_hpa; rewrite Hen; [|reflexivity].
  rewrite !length_app. cbn [length].
  rewrite <- !app_assoc. cbn [app].
  replace (length rs + 1 + 1)%nat with (length rs + 2)%nat by lia.
  replace (length rs + 2 + 1)%nat with (length rs + 3)%nat by lia.
  eexists _, _, _, _. split; [reflexivity|]. by repeat split.
Qed.

(** C9. [setup_hpa_infrastructure] never reads an attribute of a [None]
    autoscaler: [create_hpa] returns [None] only when [enable_hpa] is
    false, a case in which the early return has already left the function,
    so the read of [hpa.metadata] cannot raise and the function always
    returns. *)
Theorem hpa_name_read_is_safe g provider st :
  getattr None "metadata" ["name"] = Raise (AttributeError "metadata") /\
  (forall deployment st0,
     fst (create_hpa g deployment provider st0) = Ok None <->
     enable_hpa g = false) /\
  (forall e, fst (setup_hpa_infrastructure g provider st) <> Raise e) /\
  exists d st', setup_hpa_infrastructure g provider st = (Ok d, st').
Proof.
  split; [reflexivity|]. split; [|split].
  - intros deployment st0. unfold create_hpa.
    destruct (enable_hpa g); simpl; split; congruence.
  - intros e. destruct st as [rs outs msgs].
    destruct (enable_hpa g) eqn:Hen; run_hpa; rewrite Hen; discriminate.
  - destruct st as [rs outs msgs].
    destruct (enable_hpa g) eqn:Hen; run_hpa; rewrite Hen; by eexists _, _.
Qed.

Lemma setup_declared_earlier g provider st :
  declared_earlier (resources st) ->
  (provider < length (resources st))%nat ->
  declared_earlier (resources (snd (setup_hpa_infrastructure g provider st))).
Proof.
  intros Hst Hprov. destruct st as [rs outs msgs]. simpl in Hst, Hprov.
  destruct (enable_hpa g) eqn:Hen; run_hpa; rewrite Hen;
    cbv beta iota delta [snd resources]; [|done].
  repeat apply declared_earlier_snoc; [done|..];
    rewrite ?length_app; cbn [length];
    repeat (apply List.Forall_cons || apply List.Forall_nil); lia.
Qed.

Lemma setup_dependencies g provider st :
  enable_hpa g = true ->
  let n := length (resources st) in
  map dependencies
    (drop n (resources (snd (setup_hpa_infrastructure g provider st)))) =
    [ [provider]; [provider]; [provider];
      [(n + 1)%nat; (n + 1)%nat; provider] ].
Proof.
  intros Hen. destruct st as [rs outs msgs]. cbv zeta.
  run_hpa. rewrite Hen. cbv beta iota delta [snd resources].
  rewrite <- !app_assoc. rewrite drop_app_length.
  rewrite !length_app. reflexivity.
Qed.

End HpaClaims.

(** ** Configuration defaults *)

Section Defaults.
Context `{PyBuiltins}.

Lemma get_int_typed cfg k :
  (forall v, cfg !! k = Some v -> is_Some (py_int v)) ->
  exists a, get_int cfg k = Ok a /\ (cfg !! k = None -> a = None).
Proof.
  intros Hk. unfold get_int. destruct (cfg !! k) as [v|]; [|by eexists].
  destruct (Hk v eq_refl) as [n ->]. by eexists.
Qed.

Lemma get_object_typed cfg k :
  (forall v, cfg !! k = Some v -> is_Some (json_loads v)) ->
  exists a, get_object cfg k = Ok a /\ (cfg !! k = None -> a = None).
Proof.
  intros Hk. unfold get_object. destruct (cfg !! k) as [v|]; [|by eexists].
  destruct (Hk v eq_refl) as [n ->]. by eexists.
Qed.

Lemma hpa_load_raises cfg :
  hpa_config.load cfg =
    Raise (ImportError "TargetAverageUtilizationMetricStatusArgs").
Proof. reflexivity. Qed.

(** C2. Every option of [config.py] that the store leaves unset has its
    stated default, on every store whose node counts and zones parse, so
    that the module loads.  The options of [hpa.py] get no value, default or
    not: on every store the module stops with [ImportError] at its imports,
    before the first setting is read. *)
Theorem unset_options_outcome cfg :
  (config_typed cfg ->
   exists c,
     config.load cfg = Ok c /\
     (cfg !! "vpc_name" = None -> config.vpc_name c = "eks-vpc") /\
     (cfg !! "vpc_cidr" = None -> config.vpc_cidr c = "10.0.0.0/16") /\
     (cfg !! "availability_zones" = None ->
        config.availability_zones c =
          PList [PStr "us-east-1a"; PStr "us-east-1b"]) /\
     (cfg !! "private_subnet_1_cidr" = None ->
        config.private_subnet_1_cidr c = "10.0.1.0/24") /\
     (cfg !! "private_subnet_2_cidr" = None ->
        config.private_subnet_2_cidr c = "10.0.2.0/24") /\
     (cfg !! "public_subnet_1_cidr" = None ->
        config.public_subnet_1_cidr c = "10.0.101.0/24") /\
     (cfg !! "public_subnet_2_cidr" = None ->
        config.public_subnet_2_cidr c = "10.0.102.0/24") /\
     (cfg !! "cluster_name" = None -> config.cluster_name c = "eks-cluster") /\
     (cfg !! "cluster_version" = None -> config.cluster_version c = "1.28") /\
     (cfg !! "cluster_role_name" = None ->
        config.cluster_role_name c = "eks-cluster-role") /\
     (cfg !! "node_group_name" = None ->
        config.node_group_name c = "eks-node-group") /\
     (cfg !! "node_desired_count" = None -> config.node_desired_count c = 2) /\
     (cfg !! "node_min_count" = None -> config.node_min_count c = 1) /\
     (cfg !! "node_max_count" = None -> config.node_max_count c = 4) /\
     (cfg !! "node_instance_type" = None ->
        config.node_instance_type c = "t3.medium") /\
     (cfg !! "node_role_name" = None ->
        config.node_role_name c = "eks-node-role") /\
     (cfg !! "aws_region" = None -> config.aws_region c = "us-east-1") /\
     (cfg !! "environment" = None ->
        dict_get (config.common_tags c) "Environment" = Some (PStr "dev")) /\
     (cfg !! "project" = None ->
        dict_get (config.common_tags c) "Project" =
          Some (PStr "eks-project"))) /\
  hpa_config.load cfg =
    Raise (ImportError "TargetAverageUtilizationMetricStatusArgs").
Proof.
  split; [|apply hpa_load_raises].
  intros (Hint & Haz).
  assert (Hints : forall k, In k config_int_options ->
    exists a, get_int cfg k = Ok a /\ (cfg !! k = None -> a = None)).
  { intros k Hk. apply get_int_typed. intros v. by apply Hint. }
  destruct (get_object_typed cfg _ Haz) as (az & Eaz & Naz).
  destruct (Hints "node_desired_count") as (i1 & E1 & N1); [simpl; tauto|].
  destruct (Hints "node_min_count") as (i2 & E2 & N2); [simpl; tauto|].
  destruct (Hints "node_max_count") as (i3 & E3 & N3); [simpl; tauto|].
  unfold config.load.
  rewrite Eaz, E1, E2, E3.
  eexists. split; [reflexivity|].
  cbv beta iota zeta delta
    [config.vpc_name config.vpc_cidr config.availability_zones
     config.private_subnet_1_cidr config.private_subnet_2_cidr
     config.public_subnet_1_cidr config.public_subnet_2_cidr
     config.cluster_name config.cluster_version config.cluster_role_name
     config.node_group_name config.node_desired_count config.node_min_count
     config.node_max_count config.node_instance_type config.node_role_name
     config.aws_region config.common_tags get].
  repeat apply conj; intros Habsent;
    rewrite ?Habsent; try reflexivity;
    first [ rewrite Naz by done
          | rewrite N1 by done | rewrite N2 by done | rewrite N3 by done ];
    reflexivity.
Qed.

Lemma falsy_is_absent {A} `{Truthy A} (v d : A) :
  truthy v = false -> py_or (Some v) d = py_or None d.
Proof. intros Hv. unfold py_or. by rewrite Hv. Qed.

Lemma agree_refl {A} `{Truthy A} (x : exc (option A)) : agree x x.
Proof. by destruct x. Qed.

Lemma agree_falsy {A} `{Truthy A} (v : A) :
  truthy v = false -> agree (Ok (Some v)) (Ok None).
Proof. intros Hv d. by apply falsy_is_absent. Qed.

(** Takes the next accessor call of both sides of a goal
    [load cfg1 = load cfg2] to agreeing results. *)
Ltac step_agree Hk :=
  let E := fresh "E" in
  pose proof Hk as E; unfold agree in E;
  lazymatch type of E with
  | match ?x with _ => _ end =>
      destruct x; [|lazymatch type of E with
                     | match ?y with _ => _ end =>
                         destruct y; [contradiction | by subst]
                     end];
      lazymatch type of E with
      | match ?y with _ => _ end => destruct y; [|contradiction]
      end
  end;
  cbn [mbind exc_bind];
  rewrite ?E; clear E.

Ltac in_list := simpl; repeat first [left; reflexivity | right].

Lemma config_load_ext cfg1 cfg2 :
  (forall k d, In k string_options ->
               py_or (get cfg1 k) d = py_or (get cfg2 k) d) ->
  (forall k, In k int_options -> agree (get_int cfg1 k) (get_int cfg2 k)) ->
  agree (get_object cfg1 "availability_zones")
        (get_object cfg2 "availability_zones") ->
  config.load cfg1 = config.load cfg2.
Proof.
  intros Hs Hi Ho. unfold config.load.
  step_agree Ho.
  step_agree (Hi "node_desired_count" ltac:(in_list)).
  step_agree (Hi "node_min_count" ltac:(in_list)).
  step_agree (Hi "node_max_count" ltac:(in_list)).
  rewrite !(fun k d H => Hs k d H) by in_list.
  reflexivity.
Qed.

Lemma lookup_update_ne (cfg : Config) k v k' :
  k <> k' -> <[k := v]> cfg !! k' = delete k cfg !! k'.
Proof. intros Hne. by rewrite lookup_insert_ne, lookup_delete_ne. Qed.

Lemma config_counts_nonzero cfg c :
  config.load cfg = Ok c ->
  config.node_desired_count c <> 0 /\ config.node_min_count c <> 0 /\
  config.node_max_count c <> 0.
Proof.
  unfold config.load. intros Hload.
  destruct (get_object cfg "availability_zones"); [|discriminate].
  destruct (get_int cfg "node_desired_count") as [n1|]; [|discriminate].
  destruct (get_int cfg "node_min_count") as [n2|]; [|discriminate].
  destruct (get_int cfg "node_max_count") as [n3|]; [|discriminate].
  injection Hload as <-. simpl.
  assert (Hnz : forall (x : option Z) (n : Z), n <> 0 -> py_or x n <> 0).
  { intros [x|] n Hn; unfold py_or, truthy, truthy_int; [|done].
    destruct (Z.eqb_spec x 0); simpl; lia. }
  repeat split; by apply Hnz.
Qed.

Lemma options_nodup :
  NoDup (string_options ++ int_options ++
         ["availability_zones"; "enable_hpa"]).
Proof. apply (bool_decide_unpack _). vm_compute. exact I. Qed.

Lemma string_option_not_typed k :
  In k string_options ->
  ~ In k int_options /\ k <> "availability_zones" /\ k <> "enable_hpa".
Proof.
  intros Hk%list_elem_of_In.
  pose proof options_nodup as Hnd.
  apply NoDup_app in Hnd as (_ & Hnd & _). specialize (Hnd k Hk).
  rewrite elem_of_app, !elem_of_cons in Hnd.
  repeat split.
  - intros Hi%list_elem_of_In. tauto.
  - intros ->. tauto.
  - intros ->. tauto.
Qed.

Lemma int_option_not_other k :
  In k int_options -> k <> "availability_zones" /\ k <> "enable_hpa".
Proof.
  intros Hk%list_elem_of_In.
  pose proof options_nodup as Hnd.
  apply NoDup_app in Hnd as (_ & _ & Hnd).
  apply NoDup_app in Hnd as (_ & Hnd & _). specialize (Hnd k Hk).
  rewrite !elem_of_cons in Hnd.
  split; intros ->; tauto.
Qed.

Lemma update_get cfg k v k' d :
  (k = k' -> truthy v = false) ->
  py_or (get (<[k := v]> cfg) k') d = py_or (get (delete k cfg) k') d.
Proof.
  intros Hv. unfold get. destruct (decide (k = k')) as [<- | Hne].
  - rewrite lookup_insert_eq, lookup_delete_eq. by apply falsy_is_absent, Hv.
  - by rewrite lookup_update_ne.
Qed.

Lemma update_get_int cfg k v k' :
  (k = k' -> py_int v = Some 0) ->
  agree (get_int (<[k := v]> cfg) k') (get_int (delete k cfg) k').
Proof.
  intros Hv. unfold get_int. destruct (decide (k = k')) as [<- | Hne].
  - rewrite lookup_insert_eq, lookup_delete_eq, (Hv eq_refl).
    by apply agree_falsy.
  - rewrite lookup_update_ne by done. apply agree_refl.
Qed.

Lemma update_get_object cfg k v k' :
  (k = k' -> exists o, json_loads v = Some o /\ truthy o = false) ->
  agree (get_object (<[k := v]> cfg) k') (get_object (delete k cfg) k').
Proof.
  intros Hv. unfold get_object. destruct (decide (k = k')) as [<- | Hne].
  - rewrite lookup_insert_eq, lookup_delete_eq.
    destruct (Hv eq_refl) as (o & -> & Ho). by apply agree_falsy.
  - rewrite lookup_update_ne by done. apply agree_refl.
Qed.

(** C3. The fallbacks of [config.py] are [accessor(...) or default], so a
    falsy value in the store cannot be told from an unset option: an empty
    string, an integer 0 and a falsy JSON value load exactly as if the
    option were absent, and [node_min_count] is never 0.  The expression
    [config.get_bool('enable_hpa') or True] of [hpa.py] is [True] whatever
    [get_bool] returns, but the module never reaches it: on every store it
    stops with [ImportError] at its imports. *)
Theorem falsy_settings_outcome :
  (forall cfg k, In k string_options ->
     config.load (<[k := EmptyString]> cfg) = config.load (delete k cfg)) /\
  (forall cfg k v, In k int_options -> py_int v = Some 0 ->
     config.load (<[k := v]> cfg) = config.load (delete k cfg)) /\
  (forall cfg v o, json_loads v = Some o -> truthy o = false ->
     config.load (<["availability_zones" := v]> cfg) =
     config.load (delete "availability_zones" cfg)) /\
  (forall cfg c, config.load cfg = Ok c -> config.node_min_count c <> 0) /\
  (forall en : option bool, py_or en true = true) /\
  (forall cfg,
     hpa_config.load cfg =
       Raise (ImportError "TargetAverageUtilizationMetricStatusArgs")).
Proof.
  repeat apply conj.
  - intros cfg k Hk.
    destruct (string_option_not_typed k Hk) as (Hni & Hno & Hnb).
    apply config_load_ext.
    + intros k' d _. by apply update_get.
    + intros k' Hk'. apply update_get_int. by intros <-.
    + by apply update_get_object.
  - intros cfg k v Hk Hv.
    destruct (int_option_not_other k Hk) as (Hno & Hnb).
    apply config_load_ext.
    + intros k' d Hk'. apply update_get. intros <-.
      by destruct (string_option_not_typed k Hk').
    + intros k' _. by apply update_get_int.
    + by apply update_get_object.
  - intros cfg v o Hv Ho. apply config_load_ext.
    + intros k' d Hk'. apply update_get. intros <-.
      by destruct (string_option_not_typed _ Hk') as (_ & ? & _).
    + intros k' Hk'. apply update_get_int. intros <-.
      by destruct (int_option_not_other _ Hk').
    + apply update_get_object. intros _. by exists o.
  - intros cfg c Hload. by apply (config_counts_nonzero cfg c).
  - intros [[|]|]; reflexivity.
  - apply hpa_load_raises.
Qed.

End Defaults.

(** ** Declaration order and the dependency graph *)

Section DeclarationOrder.
Context `{PyBuiltins}.
Import config main.

Lemma program_dependencies cfg c z0 z1 :
  config.load cfg = Ok c ->
  subscript (availability_zones c) 0 = Ok z0 ->
  subscript (availability_zones c) 1 = Ok z1 ->
  exists v st,
    program cfg empty_stack = (Ok v, st) /\
    map dependencies (resources st) =
      [ [];                                            (* vpc *)
        [vpc v];                                       (* igw *)
        [vpc v]; [vpc v];                              (* public subnets *)
        [vpc v]; [vpc v];                              (* private subnets *)
        []; [];                                        (* elastic IPs *)
        [public_subnet_1 v; eip_1 v; igw v];           (* NAT gateways *)
        [public_subnet_2 v; eip_2 v; igw v];
        [vpc v; igw v];                                (* public routes *)
        [public_subnet_1 v; public_route_table v];
        [public_subnet_2 v; public_route_table v];
        [vpc v; nat_gateway_1 v];                      (* private routes *)
        [vpc v; nat_gateway_2 v];
        [private_subnet_1 v; private_route_table_1 v];
        [private_subnet_2 v; private_route_table_2 v];
        [];                                            (* cluster role *)
        [cluster_role v]; [cluster_role v];
        [];                                            (* node role *)
        [node_role v]; [node_role v]; [node_role v];
        [vpc v];                                       (* security groups *)
        [vpc v; cluster_security_group v; cluster_security_group v];
        [cluster_role v; public_subnet_1 v; public_subnet_2 v;
         private_subnet_1 v; private_subnet_2 v;
         cluster_security_group v];                    (* cluster *)
        [eks_cluster v; node_role v;                   (* node group *)
         private_subnet_1 v; private_subnet_2 v] ].
Proof.
  intros Hload H0 H1. enter_program c Hload H0 H1.
  vm_compute. reflexivity.
Qed.

(** C8. In every run of the main program, and in every run of the HPA
    setup on a stack that already has this property and holds the provider,
    each output read by an argument, each [depends_on] entry and each
    provider points to a declaration made strictly earlier; declaration
    order is therefore a topological order and the graph has no cycle. *)
Theorem declaration_order_is_topological :
  (forall cfg,
     let rs := resources (snd (program cfg empty_stack)) in
     declared_earlier rs /\ acyclic rs) /\
  (forall cfg c z0 z1,
     config.load cfg = Ok c ->
     subscript (availability_zones c) 0 = Ok z0 ->
     subscript (availability_zones c) 1 = Ok z1 ->
     exists v st,
       program cfg empty_stack = (Ok v, st) /\
       map dependencies (resources st) =
         [ [];                                            (* vpc *)
           [vpc v];                                       (* igw *)
           [vpc v]; [vpc v];                              (* public subnets *)
           [vpc v]; [vpc v];                              (* private subnets *)
           []; [];                                        (* elastic IPs *)
           [public_subnet_1 v; eip_1 v; igw v];           (* NAT gateways *)
           [public_subnet_2 v; eip_2 v; igw v];
           [vpc v; igw v];                                (* public routes *)
           [public_subnet_1 v; public_route_table v];
           [public_subnet_2 v; public_route_table v];
           [vpc v; nat_gateway_1 v];                      (* private routes *)
           [vpc v; nat_gateway_2 v];
           [private_subnet_1 v; private_route_table_1 v];
           [private_subnet_2 v; private_route_table_2 v];
           [];                                            (* cluster role *)
           [cluster_role v]; [cluster_role v];
           [];                                            (* node role *)
           [node_role v]; [node_role v]; [node_role v];
           [vpc v];                                       (* security groups *)
           [vpc v; cluster_security_group v; cluster_security_group v];
           [cluster_role v; public_subnet_1 v; public_subnet_2 v;
            private_subnet_1 v; private_subnet_2 v;
            cluster_security_group v];                    (* cluster *)
           [eks_cluster v; node_role v;                   (* node group *)
            private_subnet_1 v; private_subnet_2 v] ]) /\
  (forall g provider st,
     declared_earlier (resources st) ->
     (provider < length (resources st))%nat ->
     let rs := resources (snd (hpa.setup_hpa_infrastructure g provider st)) in
     let n := length (resources st) in
     declared_earlier rs /\ acyclic rs /\
     (hpa_config.enable_hpa g = true ->
      map dependencies (drop n rs) =
        [ [provider]; [provider]; [provider];
          [(n + 1)%nat; (n + 1)%nat; provider] ])).
Proof.
  repeat apply conj.
  - intros cfg rs. pose proof (program_declared_earlier cfg) as Hrs.
    split; [done|]. by apply declared_earlier_acyclic.
  - apply program_dependencies.
  - intros g provider st Hst Hprov rs n.
    pose proof (setup_declared_earlier g provider st Hst Hprov) as Hrs.
    split; [done|]. split; [by apply declared_earlier_acyclic|].
    intros Hen. by apply setup_dependencies.
Qed.

End DeclarationOrder.

(** ** Graph build on cyclic declaration sets *)

Section GraphBuild.
Import engine.
Variable decls : list Node.
Hypothesis names_nodup : NoDup (names decls).

Lemma node_by_name n n' :
  In n decls -> In n' decls -> node_name n = node_name n' -> n = n'.
Proof.
  revert names_nodup. unfold names. clear.
  induction decls as [|m l IH]; intros Hnd Hn Hn' Heq; [destruct Hn|].
  simpl in Hnd. apply NoDup_cons in Hnd as [Hm Hnd].
  destruct Hn as [-> | Hn], Hn' as [-> | Hn']; [done|..|by apply IH].
  - exfalso. apply Hm. rewrite Heq. apply list_elem_of_In, in_map, Hn'.
  - exfalso. apply Hm. rewrite <- Heq. apply list_elem_of_In, in_map, Hn.
Qed.

(** A node on a cycle has a dependency that is on a cycle too. *)
Lemma on_cycle_next n :
  In n decls -> on_cycle decls (node_name n) ->
  exists b, In b (node_deps n) /\ on_cycle decls b.
Proof.
  intros Hn Hc. unfold on_cycle in Hc.
  assert (Hstep : exists b, depends decls (node_name n) b /\
                            rtc (depends decls) b (node_name n)).
  { inversion Hc as [? ? Hd | ? b ? Hd Hrest]; subst.
    - exists (node_name n). split; [done | apply rtc_refl].
    - exists b. split; [done | by apply tc_rtc]. }
  destruct Hstep as (b & (n' & Hn' & Hname & Hb) & Hback).
  apply (node_by_name n' n Hn' Hn) in Hname as ->.
  exists b. split; [done|].
  unfold on_cycle. eapply tc_rtc_l; [exact Hback|].
  apply tc_once. by exists n.
Qed.

Lemma ready_deps visited n d :
  ready visited n = true -> In d (node_deps n) -> In d visited.
Proof.
  unfold ready. rewrite forallb_forall. intros Hr Hd.
  apply Hr, bool_decide_eq_true in Hd. by apply list_elem_of_In.
Qed.

Lemma kahn_round_inv pending visited :
  kahn_inv decls pending visited ->
  kahn_inv decls
    (List.filter (fun n => negb (ready visited n)) pending)
    (visited ++ names (List.filter (ready visited) pending)).
Proof.
  intros (Hpend & Hvis & Hall). repeat split.
  - intros n Hn. apply filter_In in Hn as [Hn _]. by apply Hpend.
  - intros a Ha Hc. apply in_app_or in Ha as [Ha | Ha]; [by apply (Hvis a)|].
    unfold names in Ha. apply in_map_iff in Ha as (n & <- & Hn).
    apply filter_In in Hn as [Hn Hready].
    destruct (on_cycle_next n (Hpend n Hn) Hc) as (b & Hb & Hcb).
    apply (Hvis b); [|done]. by apply (ready_deps visited n).
  - intros n Hn. destruct (Hall n Hn) as [Hp | Hv].
    + destruct (ready visited n) eqn:Hready.
      * right. apply in_or_app. right. unfold names. apply in_map.
        apply filter_In. by split.
      * left. apply filter_In. split; [done|]. by rewrite Hready.
    + right. apply in_or_app. by left.
Qed.

Lemma kahn_keeps_inv rounds pending visited :
  kahn_inv decls pending visited ->
  kahn_inv decls (snd (kahn rounds pending visited))
                 (fst (kahn rounds pending visited)).
Proof.
  revert pending visited.
  induction rounds as [|rounds IH]; intros pending visited Hinv; [done|].
  cbn [kahn].
  destruct (List.filter (ready visited) pending) eqn:Hlayer; [done|].
  rewrite <- Hlayer. apply IH. by apply kahn_round_inv.
Qed.

Lemma kahn_start_inv : kahn_inv decls decls [].
Proof. repeat split; [done | intros a [] | by left]. Qed.

(** The nodes on a cycle stay unvisited. *)
Lemma cycle_stays_unvisited a :
  on_cycle decls a ->
  In a (names (snd (kahn (length decls) decls []))).
Proof.
  intros Hc.
  destruct (kahn_keeps_inv (length decls) decls [] kahn_start_inv)
    as (_ & Hvis & Hall).
  assert (Hn : exists n, In n decls /\ node_name n = a).
  { unfold on_cycle in Hc.
    inversion Hc as [? ? (n & ? & ? & ?) | ? ? ? (n & ? & ? & ?) _]; eauto. }
  destruct Hn as (n & Hn & <-).
  destruct (Hall n Hn) as [Hp | Hv].
  - unfold names. by apply in_map.
  - by destruct (Hvis _ Hv).
Qed.

Lemma first_dangling_none declared l :
  (forall n r, In n l -> In r (node_refs n) -> In r declared) ->
  first_dangling declared l = None.
Proof.
  induction l as [|n l IH]; intros Hl; [done|]. simpl.
  destruct (List.find _ (node_refs n)) as [r|] eqn:Hfind.
  - apply find_some in Hfind as [Hr Hneg].
    apply negb_true_iff, bool_decide_eq_false in Hneg.
    destruct Hneg. apply list_elem_of_In, (Hl n r); [by left | done].
  - apply IH. intros n' r Hn' Hr. apply (Hl n' r); [by right | done].
Qed.

(** C10. A declaration set with unique logical names and a dependency
    cycle never passes graph build, and the run leaves the observed state
    untouched; when in addition every property reference resolves (the
    input constraint of the builder) the error is [CyclicDependencyError]
    and it reports every node that lies on a cycle. *)
Theorem cyclic_declarations_fail_graph_build
    {S : Type} (apply : list string -> S -> S) (observed : S) :
  has_cycle decls ->
  (exists e, build_graph decls = Failed e /\
             run apply decls observed = (Failed e, observed)) /\
  (no_dangling decls ->
   exists unvisited,
     build_graph decls = Failed (CyclicDependencyError unvisited) /\
     run apply decls observed =
       (Failed (CyclicDependencyError unvisited), observed) /\
     forall a, on_cycle decls a -> In a unvisited).
Proof.
  intros (a & Hc).
  pose proof (cycle_stays_unvisited a Hc) as Ha.
  assert (Hbuild : forall e, build_graph decls = Failed e ->
            run apply decls observed = (Failed e, observed)).
  { intros e He. unfold run. by rewrite He. }
  split.
  - unfold build_graph in *.
    destruct (first_dangling (names decls) decls) as [[n r]|];
      [by eauto|].
    destruct (kahn (length decls) decls []) as [order unvisited].
    destruct unvisited as [|u rest]; [destruct Ha|]. by eauto.
  - intros Hnd. unfold build_graph in *.
    rewrite (first_dangling_none (names decls) decls Hnd) in *.
    pose proof cycle_stays_unvisited as Hall.
    destruct (kahn (length decls) decls []) as [order unvisited].
    destruct unvisited as [|u rest]; [destruct Ha|].
    exists (names (u :: rest)). split; [done|]. split; [by apply Hbuild|].
    exact Hall.
Qed.

End GraphBuild.

(** ** Graph build at concrete declaration sets *)

(** Not every cyclic declaration set fails with [CyclicDependencyError].
    With a logical name declared twice a cyclic set passes graph build and
    is applied: [a] waits for [b] and [b] for [a], but the second
    declaration named [a] waits for nothing, and once it is visited the
    other two drain.  With a reference to an undeclared node a cyclic set
    fails the input constraint first, with [DanglingReferenceError]. *)
Lemma cyclic_build_counterexample :
  let twice :=
    [ {| engine.node_name := "a"; engine.node_refs := ["b"];
         engine.node_hints := [] |};
      {| engine.node_name := "a"; engine.node_refs := [];
         engine.node_hints := [] |};
      {| engine.node_name := "b"; engine.node_refs := ["a"];
         engine.node_hints := [] |} ] in
  let ghost :=
    [ {| engine.node_name := "a"; engine.node_refs := ["b"];
         engine.node_hints := [] |};
      {| engine.node_name := "b"; engine.node_refs := ["a"; "ghost"];
         engine.node_hints := [] |} ] in
  let apply := fun (order : list string) (n : nat) => (n + length order)%nat in
  (engine.has_cycle twice /\
   engine.no_dangling twice /\
   engine.build_graph twice = Done ["a"; "b"; "a"] /\
   engine.run apply twice 7%nat = (Done ["a"; "b"; "a"], 10%nat)) /\
  (engine.has_cycle ghost /\
   NoDup (engine.names ghost) /\
   engine.build_graph ghost = Failed (DanglingReferenceError "b" "ghost") /\
   forall nodes,
     engine.build_graph ghost <> Failed (CyclicDependencyError nodes)).
Proof.
  intros twice ghost apply. split.
  - repeat apply conj.
    + exists "a". eapply tc_l; [|apply tc_once].
      * eexists. split; [left; reflexivity|]. split; [reflexivity|]. by left.
      * eexists. split; [right; right; left; reflexivity|].
        split; [reflexivity|]. by left.
    + intros n r [<- | [<- | [<- | []]]] Hr; simpl in Hr;
        repeat (destruct Hr as [<- | Hr]; [vm_compute; tauto|]); destruct Hr.
    + vm_compute. reflexivity.
    + vm_compute. reflexivity.
  - repeat apply conj.
    + exists "a". eapply tc_l; [|apply tc_once].
      * eexists. split; [left; reflexivity|]. split; [reflexivity|]. by left.
      * eexists. split; [right; left; reflexivity|].
        split; [reflexivity|]. by left.
    + apply (bool_decide_unpack _). vm_compute. exact I.
    + vm_compute. reflexivity.
    + intros nodes. vm_compute. discriminate.
Qed.

Example build_graph_orders_network :
  engine.build_graph
    [ {| engine.node_name := "nat"; engine.node_refs := ["subnet"; "eip"];
         engine.node_hints := ["igw"] |};
      {| engine.node_name := "subnet"; engine.node_refs := ["vpc"];
         engine.node_hints := [] |};
      {| engine.node_name := "igw"; engine.node_refs := ["vpc"];
         engine.node_hints := [] |};
      {| engine.node_name := "eip"; engine.node_refs := [];
         engine.node_hints := [] |};
      {| engine.node_name := "vpc"; engine.node_refs := [];
         engine.node_hints := [] |} ] =
  Done ["eip"; "vpc"; "subnet"; "igw"; "nat"].
Proof. vm_compute. reflexivity. Qed.

Example build_graph_reports_dangling :
  engine.build_graph
    [ {| engine.node_name := "igw"; engine.node_refs := ["vpc"];
         engine.node_hints := [] |} ] =
  Failed (DanglingReferenceError "igw" "vpc").
Proof. vm_compute. reflexivity. Qed.

(** ** The settings modules at concrete stores *)

(** [hpa.py] stops at its imports, here on the empty store. *)
Example hpa_import_fails :
  hpa_config.load (H := sample.builtins) ∅ =
  Raise (ImportError "TargetAverageUtilizationMetricStatusArgs").
Proof. vm_compute. reflexivity. Qed.

(** The assignments of [hpa.py], run on their own: the literals at the
    right of each [or] on the empty store, [True] for [enable_hpa] also when
    the store says false, and [ConfigTypeError] for a text that is no
    boolean. *)
Example hpa_settings_defaults :
  hpa_config.settings (H := sample.builtins) ∅ = Ok sample.hpa_state.
Proof. vm_compute. reflexivity. Qed.

Example enable_hpa_false_is_ignored :
  hpa_config.settings (H := sample.builtins) {[ "enable_hpa" := "false" ]} =
  Ok sample.hpa_state.
Proof. vm_compute. reflexivity. Qed.

Example enable_hpa_not_boolean :
  hpa_config.settings (H := sample.builtins) {[ "enable_hpa" := "off" ]} =
  Raise (ConfigTypeError "enable_hpa").
Proof. vm_compute. reflexivity. Qed.

Example zones_from_store :
  config.availability_zones <$>
    (match config.load (H := sample.builtins)
             {[ "availability_zones" :=
                  "[" ++ sample.quoted "eu-west-1a" ++ ", " ++
                  sample.quoted "eu-west-1b" ++ "]" ]} with
     | Ok c => Some c
     | Raise _ => None
     end) = Some (PList [PStr "eu-west-1a"; PStr "eu-west-1b"]).
Proof. vm_compute. reflexivity. Qed.

(** With a single configured zone the second subnet is never declared:
    the program stops at [availability_zones[1]] with the VPC, the internet
    gateway and the first public subnet registered. *)
Example one_zone_stops_the_program :
  let c := {[ "availability_zones" :=
                "[" ++ sample.quoted "eu-west-1a" ++ "]" ]} in
  fst (main.program (H := sample.builtins) c empty_stack) = Raise IndexError /\
  map rname (resources (snd (main.program (H := sample.builtins) c
                               empty_stack))) =
    ["eks-vpc"; "eks-igw"; "eks-public-subnet-1"].
Proof. split; vm_compute; reflexivity. Qed.

(** ** The theorems at concrete inputs

    Runs with the executable builtins of [sample]. *)

(** Names the settings that [config.py] computes from the store [cfg]. *)
Ltac pose_settings cfg c :=
  let r := eval vm_compute in (config.load (H := sample.builtins) cfg) in
  lazymatch r with
  | Ok ?x => pose (c := x)
  end.

Lemma network_zone_pairing_witness :
  let cfg : Config := {[ "vpc_name" := "shop-vpc" ]} in
  exists c,
    config.load (H := sample.builtins) cfg = Ok c /\
    subscript (config.availability_zones c) 0 = Ok (PStr "us-east-1a") /\
    subscript (config.availability_zones c) 1 = Ok (PStr "us-east-1b") /\
    exists v st,
      main.program (H := sample.builtins) cfg empty_stack = (Ok v, st) /\
      nat_paths (resources st) =
        [(main.private_subnet_1 v, main.private_route_table_1 v,
          main.nat_gateway_1 v, main.public_subnet_1 v);
         (main.private_subnet_2 v, main.private_route_table_2 v,
          main.nat_gateway_2 v, main.public_subnet_2 v)].
Proof.
  intros cfg. pose_settings cfg c. exists c.
  assert (Hload : config.load (H := sample.builtins) cfg = Ok c)
    by (vm_compute; reflexivity).
  assert (H0 : subscript (config.availability_zones c) 0 =
               Ok (PStr "us-east-1a")) by reflexivity.
  assert (H1 : subscript (config.availability_zones c) 1 =
               Ok (PStr "us-east-1b")) by reflexivity.
  repeat (split; [assumption|]).
  destruct (network_zone_pairing cfg c _ _ Hload H0 H1)
    as (v & st & Hrun & Hrest).
  exists v, st. split; [exact Hrun|]. apply Hrest.
Defined.

(** A store with two options set and all others unset; its [hpa.py] keys
    could hold anything. *)
Lemma unset_options_outcome_witness :
  let cfg : Config :=
    <["hpa_min_replicas" := "many"]>
      (<["node_min_count" := "3"]> {[ "cluster_name" := "shop" ]}) in
  config_typed (H := sample.builtins) cfg /\
  (exists c,
     config.load (H := sample.builtins) cfg = Ok c /\
     config.cluster_name c = "shop" /\
     config.node_min_count c = 3 /\
     config.vpc_cidr c = "10.0.0.0/16" /\
     config.node_max_count c = 4) /\
  hpa_config.load (H := sample.builtins) cfg =
    Raise (ImportError "TargetAverageUtilizationMetricStatusArgs").
Proof.
  intros cfg.
  assert (Hwt : config_typed (H := sample.builtins) cfg).
  { split.
    - intros k v Hk Hlk. unfold config_int_options in Hk. simpl in Hk.
      repeat (destruct Hk as [<- | Hk];
              [ vm_compute in Hlk;
                first [ discriminate Hlk
                      | injection Hlk as <-; eexists; vm_compute; reflexivity ]
              | ]).
      destruct Hk.
    - intros v Hlk. vm_compute in Hlk. discriminate Hlk. }
  split; [exact Hwt|].
  destruct (unset_options_outcome (H := sample.builtins) cfg) as (Hconfig & Hhpa).
  split; [|exact Hhpa].
  destruct (Hconfig Hwt)
    as (c & Hc & _ & Hcidr & _ & _ & _ & _ & _ & _ & _ & _ & _ & _ & _ & Hmax
          & _).
  exists c. split; [exact Hc|].
  assert (Ec : config.load (H := sample.builtins) cfg = _)
    by (vm_compute; reflexivity).
  rewrite Hc in Ec. injection Ec as Ec.
  split; [by rewrite Ec|]. split; [by rewrite Ec|].
  split; [by apply Hcidr | by apply Hmax].
Defined.

Lemma falsy_settings_outcome_witness :
  let cfg : Config :=
    <["node_min_count" := "0"]> (<["vpc_name" := EmptyString]>
      {[ "enable_hpa" := "false" ]}) in
  config.load (H := sample.builtins) (<["node_min_count" := "0"]> cfg) =
    config.load (H := sample.builtins) (delete "node_min_count" cfg) /\
  (exists c, config.load (H := sample.builtins) cfg = Ok c /\
             config.node_min_count c <> 0) /\
  hpa_config.load (H := sample.builtins) cfg =
    Raise (ImportError "TargetAverageUtilizationMetricStatusArgs").
Proof.
  intros cfg.
  destruct (falsy_settings_outcome (H := sample.builtins))
    as (_ & Hint & _ & Hmin & _ & Hhpa).
  split; [|split].
  - apply (Hint cfg "node_min_count" "0").
    + unfold int_options. simpl. tauto.
    + vm_compute. reflexivity.
  - eexists. split; [vm_compute; reflexivity|].
    eapply (Hmin cfg). vm_compute. reflexivity.
  - apply Hhpa.
Defined.

Lemma exported_outputs_witness :
  let cfg : Config := ∅ in
  exists c,
    config.load (H := sample.builtins) cfg = Ok c /\
    subscript (config.availability_zones c) 0 = Ok (PStr "us-east-1a") /\
    subscript (config.availability_zones c) 1 = Ok (PStr "us-east-1b") /\
    exists v st,
      main.program (H := sample.builtins) cfg empty_stack = (Ok v, st) /\
      forall (obs : Observed) attrs,
        obs (main.eks_cluster v) = Some attrs ->
        resolve_output obs (outputs st) "cluster_endpoint" =
          Some (Done (attrs ["endpoint"])).
Proof.
  intros cfg. pose_settings cfg c. exists c.
  assert (Hload : config.load (H := sample.builtins) cfg = Ok c)
    by (vm_compute; reflexivity).
  assert (H0 : subscript (config.availability_zones c) 0 =
               Ok (PStr "us-east-1a")) by reflexivity.
  assert (H1 : subscript (config.availability_zones c) 1 =
               Ok (PStr "us-east-1b")) by reflexivity.
  repeat (split; [assumption|]).
  destruct (exported_outputs cfg c _ _ Hload H0 H1)
    as (v & st & Hrun & Hrest).
  exists v, st. split; [exact Hrun|]. apply Hrest.
Defined.

(** Module variables with replica bounds and a CPU target of their own. *)
Lemma hpa_follows_configuration_witness :
  let g : hpa_config.globals :=
    {| hpa_config.enable_hpa := true;
       hpa_config.hpa_min_replicas := 3;
       hpa_config.hpa_max_replicas := 10;
       hpa_config.hpa_cpu_threshold := 55;
       hpa_config.hpa_memory_threshold := 80;
       hpa_config.demo_namespace := "default";
       hpa_config.demo_app_name := "demo-app";
       hpa_config.demo_app_image := "nginx:latest";
       hpa_config.demo_app_replicas := 2;
       hpa_config.demo_app_port := 80;
       hpa_config.common_tags :=
         [("ManagedBy", PStr "Pulumi"); ("Component", PStr "HPA")] |} in
  exists r,
    fst (hpa.create_hpa g 1%nat 0%nat empty_stack) = Ok (Some 0%nat) /\
    resources (snd (hpa.create_hpa g 1%nat 0%nat empty_stack)) = [r] /\
    spec_field r "min_replicas" = Some (int 3) /\
    spec_field r "max_replicas" = Some (int 10).
Proof.
  intros g.
  pose proof (hpa_follows_configuration g 1%nat 0%nat empty_stack) as Hhpa.
  change (hpa_config.enable_hpa g) with true in Hhpa. cbv iota in Hhpa.
  destruct Hhpa as (r & Hrun & _ & _ & _ & _ & Smin & Smax & _).
  exists r. rewrite Hrun. split; [reflexivity|]. split; [reflexivity|].
  split; [exact Smin | exact Smax].
Defined.

Lemma nat_gateways_depend_on_igw_witness :
  let cfg : Config := {[ "environment" := "prod" ]} in
  exists c,
    config.load (H := sample.builtins) cfg = Ok c /\
    subscript (config.availability_zones c) 0 = Ok (PStr "us-east-1a") /\
    subscript (config.availability_zones c) 1 = Ok (PStr "us-east-1b") /\
    exists v st,
      main.program (H := sample.builtins) cfg empty_stack = (Ok v, st) /\
      (depends_on ∘ ropts) <$> resources st !! main.nat_gateway_1 v =
        Some [main.igw v] /\
      (depends_on ∘ ropts) <$> resources st !! main.nat_gateway_2 v =
        Some [main.igw v].
Proof.
  intros cfg. pose_settings cfg c. exists c.
  assert (Hload : config.load (H := sample.builtins) cfg = Ok c)
    by (vm_compute; reflexivity).
  assert (H0 : subscript (config.availability_zones c) 0 =
               Ok (PStr "us-east-1a")) by reflexivity.
  assert (H1 : subscript (config.availability_zones c) 1 =
               Ok (PStr "us-east-1b")) by reflexivity.
  repeat (split; [assumption|]).
  destruct (nat_gateways_depend_on_igw cfg c _ _ Hload H0 H1)
    as (v & st & Hrun & _ & _ & Hd1 & Hd2 & _).
  exists v, st. split; [exact Hrun|]. split; [exact Hd1 | exact Hd2].
Defined.

(** A stack that holds only the Kubernetes provider. *)
Lemma declaration_order_is_topological_witness :
  let st : Stack :=
    {| resources :=
         [ {| rtype := "k8s.Provider"; rname := "k8s"; rargs := [];
              ropts := no_opts |} ];
       outputs := ∅;
       infos := [] |} in
  let g : hpa_config.globals :=
    {| hpa_config.enable_hpa := true;
       hpa_config.hpa_min_replicas := 2;
       hpa_config.hpa_max_replicas := 10;
       hpa_config.hpa_cpu_threshold := 70;
       hpa_config.hpa_memory_threshold := 80;
       hpa_config.demo_namespace := "default";
       hpa_config.demo_app_name := "demo-app";
       hpa_config.demo_app_image := "nginx:latest";
       hpa_config.demo_app_replicas := 2;
       hpa_config.demo_app_port := 80;
       hpa_config.common_tags :=
         [("ManagedBy", PStr "Pulumi"); ("Component", PStr "HPA")] |} in
  declared_earlier (resources st) /\
  (0 < length (resources st))%nat /\
  acyclic (resources (snd (hpa.setup_hpa_infrastructure g 0%nat st))) /\
  acyclic (resources (snd (main.program (H := sample.builtins) ∅ empty_stack))).
Proof.
  intros st g.
  assert (Hst : declared_earlier (resources st)).
  { intros a b (r & Ha & Hb). destruct a as [|[|a]]; simpl in Ha.
    - injection Ha as <-. destruct Hb.
    - discriminate Ha.
    - discriminate Ha. }
  assert (Hprov : (0 < length (resources st))%nat) by (simpl; lia).
  destruct (declaration_order_is_topological (H := sample.builtins))
    as (Hmain & _ & Hhpa).
  split; [exact Hst|]. split; [exact Hprov|]. split.
  - apply (Hhpa g 0%nat st Hst Hprov).
  - apply (Hmain ∅).
Defined.

Lemma cyclic_declarations_fail_graph_build_witness :
  let decls :=
    [ {| engine.node_name := "a"; engine.node_refs := ["b"];
         engine.node_hints := [] |};
      {| engine.node_name := "b"; engine.node_refs := [];
         engine.node_hints := ["a"] |};
      {| engine.node_name := "c"; engine.node_refs := ["a"];
         engine.node_hints := [] |} ] in
  NoDup (engine.names decls) /\
  engine.has_cycle decls /\
  engine.no_dangling decls /\
  engine.build_graph decls = Failed (CyclicDependencyError ["a"; "b"; "c"]) /\
  engine.run (fun order (n : nat) => (n + length order)%nat) decls 7%nat =
    (Failed (CyclicDependencyError ["a"; "b"; "c"]), 7%nat).
Proof.
  intros decls.
  assert (Hnd : NoDup (engine.names decls)).
  { apply (bool_decide_unpack _). vm_compute. exact I. }
  assert (Hab : engine.depends decls "a" "b").
  { eexists. split; [left; reflexivity|]. split; [reflexivity|]. by left. }
  assert (Hba : engine.depends decls "b" "a").
  { eexists. split; [right; left; reflexivity|]. split; [reflexivity|].
    by left. }
  assert (Hc : engine.has_cycle decls).
  { exists "a". eapply tc_l; [exact Hab|]. by apply tc_once. }
  assert (Hdang : engine.no_dangling decls).
  { intros n r [<- | [<- | [<- | []]]] Hr; simpl in Hr;
      repeat (destruct Hr as [<- | Hr]; [vm_compute; tauto|]); destruct Hr. }
  destruct (cyclic_declarations_fail_graph_build decls Hnd
              (fun order (n : nat) => (n + length order)%nat) 7%nat Hc)
    as (_ & Hcyc).
  destruct (Hcyc Hdang) as (unvisited & Hbuild & Hrun & _).
  repeat (split; [assumption|]).
  assert (E : engine.build_graph decls =
              Failed (CyclicDependencyError ["a"; "b"; "c"]))
    by (vm_compute; reflexivity).
  rewrite Hbuild in E. injection E as ->.
  split; [exact Hbuild | exact Hrun].
Defined.

(** * The settings modules, beyond defaults *)

Ltac in_keys := simpl; repeat first [left; reflexivity | right].

Section Settings.
Context `{PyBuiltins}.

Lemma config_string_field cfg c k f :
  config.load cfg = Ok c -> In (k, f) config_string_fields ->
  exists d, f c = py_or (get cfg k) d.
Proof.
  unfold config.load. intros Hload Hk.
  destruct (get_object cfg "availability_zones"); [|discriminate].
  destruct (get_int cfg "node_desired_count"); [|discriminate].
  destruct (get_int cfg "node_min_count"); [|discriminate].
  destruct (get_int cfg "node_max_count"); [|discriminate].
  injection Hload as <-. unfold config_string_fields in Hk. simpl in Hk.
  repeat (destruct Hk as [[= <- <-] | Hk]; [by eexists|]). destruct Hk.
Qed.

Lemma config_int_field cfg c k f :
  config.load cfg = Ok c -> In (k, f) config_int_fields ->
  exists a d, get_int cfg k = Ok a /\ f c = py_or a d.
Proof.
  unfold config.load. intros Hload Hk.
  destruct (get_object cfg "availability_zones"); [|discriminate].
  destruct (get_int cfg "node_desired_count") eqn:E1; [|discriminate].
  destruct (get_int cfg "node_min_count") eqn:E2; [|discriminate].
  destruct (get_int cfg "node_max_count") eqn:E3; [|discriminate].
  injection Hload as <-. unfold config_int_fields in Hk. simpl in Hk.
  repeat (destruct Hk as [[= <- <-] | Hk]; [eexists _, _; split; [eassumption | reflexivity]|]). destruct Hk.
Qed.

Lemma config_zones_field cfg c :
  config.load cfg = Ok c ->
  exists a, get_object cfg "availability_zones" = Ok a /\
    config.availability_zones c =
      py_or a (PList [PStr "us-east-1a"; PStr "us-east-1b"]).
Proof.
  unfold config.load. intros Hload.
  destruct (get_object cfg "availability_zones"); [|discriminate].
  destruct (get_int cfg "node_desired_count"); [|discriminate].
  destruct (get_int cfg "node_min_count"); [|discriminate].
  destruct (get_int cfg "node_max_count"); [|discriminate].
  injection Hload as <-. by eexists.
Qed.

Lemma config_tags_field cfg c :
  config.load cfg = Ok c ->
  config.common_tags c =
    [ ("Environment", PStr (py_or (get cfg "environment") "dev"));
      ("Project", PStr (py_or (get cfg "project") "eks-project"));
      ("CreatedBy", PStr "Pulumi") ].
Proof.
  unfold config.load. intros Hload.
  destruct (get_object cfg "availability_zones"); [|discriminate].
  destruct (get_int cfg "node_desired_count"); [|discriminate].
  destruct (get_int cfg "node_min_count"); [|discriminate].
  destruct (get_int cfg "node_max_count"); [|discriminate].
  by injection Hload as <-.
Qed.

Lemma py_or_string v d : v <> EmptyString -> py_or (Some v) d = v.
Proof. by destruct v. Qed.

Lemma py_or_int n d : n <> 0 -> py_or (Some n) d = n.
Proof.
  intros Hn. unfold py_or, truthy, truthy_int.
  by destruct (Z.eqb_spec n 0).
Qed.

Lemma get_int_supplied cfg k v n a :
  cfg !! k = Some v -> py_int v = Some n -> get_int cfg k = Ok a ->
  a = Some n.
Proof. unfold get_int. intros -> ->. congruence. Qed.

Lemma config_typed_loads cfg :
  config_typed cfg -> exists c, config.load cfg = Ok c.
Proof.
  intros (Hint & Haz).
  assert (Hints : forall k, In k config_int_options ->
            exists a, get_int cfg k = Ok a).
  { intros k Hk. destruct (get_int_typed cfg k) as (a & Ha & _); [|by eexists].
    intros v. by apply Hint. }
  destruct (get_object_typed cfg _ Haz) as (az & Eaz & _).
  destruct (Hints "node_desired_count") as (i1 & E1); [in_keys|].
  destruct (Hints "node_min_count") as (i2 & E2); [in_keys|].
  destruct (Hints "node_max_count") as (i3 & E3); [in_keys|].
  unfold config.load. rewrite Eaz, E1, E2, E3. by eexists.
Qed.

(** X1. On a store whose node counts and zones parse, [config.py] loads and
    every option the user set to a truthy value (a non-empty string, an
    integer other than 0, a truthy JSON value for the zones) is taken
    exactly as supplied: nothing is clamped, trimmed or validated.  What
    the store holds under the keys of [hpa.py] plays no part. *)
Theorem supplied_options_are_used cfg :
  config_typed cfg ->
  exists c,
    config.load cfg = Ok c /\
    (forall k f v, In (k, f) config_string_fields ->
       cfg !! k = Some v -> v <> EmptyString -> f c = v) /\
    (forall k f v n, In (k, f) config_int_fields ->
       cfg !! k = Some v -> py_int v = Some n -> n <> 0 -> f c = n) /\
    (forall v o, cfg !! "availability_zones" = Some v ->
       json_loads v = Some o -> truthy o = true ->
       config.availability_zones c = o) /\
    (forall v, cfg !! "environment" = Some v -> v <> EmptyString ->
       dict_get (config.common_tags c) "Environment" = Some (PStr v)) /\
    (forall v, cfg !! "project" = Some v -> v <> EmptyString ->
       dict_get (config.common_tags c) "Project" = Some (PStr v)).
Proof.
  intros Hwt. destruct (config_typed_loads cfg Hwt) as (c & Hc).
  exists c. split; [done|]. repeat apply conj.
  - intros k f v Hk Hv Hne.
    destruct (config_string_field cfg c k f Hc Hk) as (d & ->).
    unfold get. rewrite Hv. by apply py_or_string.
  - intros k f v n Hk Hv Hn Hne.
    destruct (config_int_field cfg c k f Hc Hk) as (a & d & Ha & ->).
    rewrite (get_int_supplied cfg k v n a Hv Hn Ha). by apply py_or_int.
  - intros v o Hv Ho Ht.
    destruct (config_zones_field cfg c Hc) as (a & Ha & ->).
    unfold get_object in Ha. rewrite Hv, Ho in Ha. injection Ha as <-.
    unfold py_or. by rewrite Ht.
  - intros v Hv Hne. rewrite (config_tags_field cfg c Hc). simpl.
    unfold get. rewrite Hv. by rewrite py_or_string.
  - intros v Hv Hne. rewrite (config_tags_field cfg c Hc). simpl.
    unfold get. rewrite Hv. by rewrite py_or_string.
Qed.

End Settings.

Section LoadOutcome.
Context `{PyBuiltins}.

Lemma first_rejected_cons cfg k ks :
  first_rejected cfg (k :: ks) =
    match cfg !! k with
    | Some v => if accepts k v then first_rejected cfg ks else Some k
    | None => first_rejected cfg ks
    end.
Proof.
  unfold first_rejected. simpl.
  destruct (cfg !! k) as [v|]; [|done]. by destruct (accepts k v).
Qed.

Lemma first_rejected_skip cfg k ks :
  (forall v, accepts k v = true) ->
  first_rejected cfg (k :: ks) = first_rejected cfg ks.
Proof.
  intros Hk. rewrite first_rejected_cons.
  destruct (cfg !! k) as [v|]; [|done]. by rewrite Hk.
Qed.

(** A typed key either stops the module with its own error or lets it go
    on to the next key. *)
Lemma int_key_cases cfg k ks :
  (forall v, accepts k v =
             match py_int v with Some _ => true | None => false end) ->
  (first_rejected cfg (k :: ks) = Some k /\
   get_int cfg k = Raise (ConfigTypeError k)) \/
  (first_rejected cfg (k :: ks) = first_rejected cfg ks /\
   exists a, get_int cfg k = Ok a).
Proof.
  intros Hk. rewrite first_rejected_cons. unfold get_int.
  destruct (cfg !! k) as [v|]; [|right; by eauto].
  rewrite Hk. destruct (py_int v); [right | left]; by eauto.
Qed.

Lemma object_key_cases cfg k ks :
  (forall v, accepts k v =
             match json_loads v with Some _ => true | None => false end) ->
  (first_rejected cfg (k :: ks) = Some k /\
   get_object cfg k = Raise (ConfigTypeError k)) \/
  (first_rejected cfg (k :: ks) = first_rejected cfg ks /\
   exists a, get_object cfg k = Ok a).
Proof.
  intros Hk. rewrite first_rejected_cons. unfold get_object.
  destruct (cfg !! k) as [v|]; [|right; by eauto].
  rewrite Hk. destruct (json_loads v); [right | left]; by eauto.
Qed.

Lemma bool_key_cases cfg k ks :
  (forall v, accepts k v =
             existsb (String.eqb v) ["true"; "True"; "false"; "False"]) ->
  (first_rejected cfg (k :: ks) = Some k /\
   get_bool cfg k = Raise (ConfigTypeError k)) \/
  (first_rejected cfg (k :: ks) = first_rejected cfg ks /\
   exists a, get_bool cfg k = Ok a).
Proof.
  intros Hk. rewrite first_rejected_cons. unfold get_bool.
  destruct (cfg !! k) as [v|]; [|right; by eauto].
  rewrite Hk. cbn [existsb].
  destruct (String.eqb v "true"), (String.eqb v "True"),
    (String.eqb v "false"), (String.eqb v "False"); simpl; by eauto.
Qed.

(** Consumes the leading [get] keys of the key list. *)
Ltac skip_string_keys :=
  repeat (rewrite first_rejected_skip by (intros ?; reflexivity)).

(** Takes the next typed key with its case lemma. *)
Ltac typed_key lem :=
  skip_string_keys;
  let a := fresh "a" in
  destruct lem as [[-> ->] | [-> [a ->]]];
  [ reflexivity | cbn [mbind exc_bind] ].

(** X2. [config.py] either loads or raises [ConfigTypeError] for the first
    key, in source order, whose stored text its accessor rejects: the zones
    when they are not JSON, a node count when it is not an integer.  String
    options and keys the module does not read never make it fail. *)
Theorem config_load_outcome cfg :
  match first_rejected cfg config_keys with
  | Some k => config.load cfg = Raise (ConfigTypeError k)
  | None => exists c, config.load cfg = Ok c
  end.
Proof.
  unfold config.load, config_keys.
  typed_key (object_key_cases cfg "availability_zones"
    [ "private_subnet_1_cidr"; "private_subnet_2_cidr";
      "public_subnet_1_cidr"; "public_subnet_2_cidr"; "cluster_name";
      "cluster_version"; "cluster_role_name"; "node_group_name";
      "node_desired_count"; "node_min_count"; "node_max_count";
      "node_instance_type"; "node_role_name"; "aws_region"; "environment";
      "project" ] ltac:(reflexivity)).
  typed_key (int_key_cases cfg "node_desired_count"
    [ "node_min_count"; "node_max_count"; "node_instance_type";
      "node_role_name"; "aws_region"; "environment"; "project" ]
    ltac:(reflexivity)).
  typed_key (int_key_cases cfg "node_min_count"
    [ "node_max_count"; "node_instance_type"; "node_role_name"; "aws_region";
      "environment"; "project" ] ltac:(reflexivity)).
  typed_key (int_key_cases cfg "node_max_count"
    [ "node_instance_type"; "node_role_name"; "aws_region"; "environment";
      "project" ] ltac:(reflexivity)).
  skip_string_keys. by eexists.
Qed.

(** X3. [hpa.py] stops with [ImportError] on every store: the import of
    [TargetAverageUtilizationMetricStatusArgs] fails before any key is
    read.  The assignments that follow it, taken on their own, either
    complete or raise [ConfigTypeError] for the first key, in source order,
    whose stored text its accessor rejects: [enable_hpa] when it is none of
    true, True, false, False, an integer option when it is not an
    integer. *)
Theorem hpa_load_outcome cfg :
  hpa_config.load cfg =
    Raise (ImportError "TargetAverageUtilizationMetricStatusArgs") /\
  match first_rejected cfg hpa_keys with
  | Some k => hpa_config.settings cfg = Raise (ConfigTypeError k)
  | None => exists g, hpa_config.settings cfg = Ok g
  end.
Proof.
  split; [reflexivity|].
  unfold hpa_config.settings, hpa_keys.
  typed_key (bool_key_cases cfg "enable_hpa"
    [ "hpa_min_replicas"; "hpa_max_replicas"; "hpa_cpu_threshold";
      "hpa_memory_threshold"; "demo_namespace"; "demo_app_name";
      "demo_app_image"; "demo_app_replicas"; "demo_app_port" ]
    ltac:(reflexivity)).
  typed_key (int_key_cases cfg "hpa_min_replicas"
    [ "hpa_max_replicas"; "hpa_cpu_threshold"; "hpa_memory_threshold";
      "demo_namespace"; "demo_app_name"; "demo_app_image";
      "demo_app_replicas"; "demo_app_port" ] ltac:(reflexivity)).
  typed_key (int_key_cases cfg "hpa_max_replicas"
    [ "hpa_cpu_threshold"; "hpa_memory_threshold"; "demo_namespace";
      "demo_app_name"; "demo_app_image"; "demo_app_replicas";
      "demo_app_port" ] ltac:(reflexivity)).
  typed_key (int_key_cases cfg "hpa_cpu_threshold"
    [ "hpa_memory_threshold"; "demo_namespace"; "demo_app_name";
      "demo_app_image"; "demo_app_replicas"; "demo_app_port" ]
    ltac:(reflexivity)).
  typed_key (int_key_cases cfg "hpa_memory_threshold"
    [ "demo_namespace"; "demo_app_name"; "demo_app_image";
      "demo_app_replicas"; "demo_app_port" ] ltac:(reflexivity)).
  typed_key (int_key_cases cfg "demo_app_replicas" [ "demo_app_port" ]
    ltac:(reflexivity)).
  typed_key (int_key_cases cfg "demo_app_port" [] ltac:(reflexivity)).
  by eexists.
Qed.

End LoadOutcome.

Section Frame.
Context `{PyBuiltins}.






(** X5. The [aws_region] option is read by [config.py] and imported by the
    main program but used by no declaration: whatever the store says for it,
    the program returns the same result and leaves the same stack. *)
Theorem aws_region_is_unused cfg v st :
  main.program (<["aws_region" := v]> cfg) st = main.program cfg st /\
  main.program (delete "aws_region" cfg) st = main.program cfg st.
Proof.
  assert (Hgen : forall cfg',
    (forall k, k <> "aws_region" -> cfg' !! k = cfg !! k) ->
    main.program cfg' st = main.program cfg st).
  { intros cfg' Hk. unfold main.program, config.load, get_object, get_int, get.
    rewrite (Hk "vpc_name"), (Hk "vpc_cidr"), (Hk "availability_zones"),
      (Hk "private_subnet_1_cidr"), (Hk "private_subnet_2_cidr"),
      (Hk "public_subnet_1_cidr"), (Hk "public_subnet_2_cidr"),
      (Hk "cluster_name"), (Hk "cluster_version"), (Hk "cluster_role_name"),
      (Hk "node_group_name"), (Hk "node_desired_count"),
      (Hk "node_min_count"), (Hk "node_max_count"),
      (Hk "node_instance_type"), (Hk "node_role_name"), (Hk "environment"),
      (Hk "project") by done.
    unfold mbind at 1 5, M_bind, lift.
    destruct (match cfg !! "availability_zones" with
              | Some v0 => _ | None => _ end); [|done].
    cbn [mbind exc_bind].
    destruct (match cfg !! "node_desired_count" with
              | Some v0 => _ | None => _ end); [|done].
    cbn [mbind exc_bind].
    destruct (match cfg !! "node_min_count" with
              | Some v0 => _ | None => _ end); [|done].
    cbn [mbind exc_bind].
    destruct (match cfg !! "node_max_count" with
              | Some v0 => _ | None => _ end); [|done].
    cbn [mbind exc_bind mret exc_ret].
    reflexivity. }
  split; apply Hgen; intros k Hk.
  - by apply lookup_insert_ne.
  - by apply lookup_delete_ne.
Qed.

End Frame.

(** * The main program, beyond the network pairing *)

Section MainExtras.
Context `{PyBuiltins}.
Import config main.

(** X6. What a run of the main program leaves behind.  When [config.py]
    raises, nothing is declared.  When [availability_zones[0]] raises, the
    VPC and the internet gateway are already declared; when
    [availability_zones[1]] raises, the first public subnet is too.  No
    output is exported unless the run completes, with 28 declarations and
    11 outputs. *)
Theorem program_outcomes cfg :
  match config.load cfg with
  | Raise e => program cfg empty_stack = (Raise e, empty_stack)
  | Ok c =>
      let st := snd (program cfg empty_stack) in
      infos st = [] /\
      match subscript (availability_zones c) 0,
            subscript (availability_zones c) 1 with
      | Raise e, _ =>
          fst (program cfg empty_stack) = Raise e /\
          map urn (resources st) =
            [("aws.ec2.Vpc", vpc_name c);
             ("aws.ec2.InternetGateway", "eks-igw")] /\
          outputs st = ∅
      | Ok _, Raise e =>
          fst (program cfg empty_stack) = Raise e /\
          map urn (resources st) =
            [("aws.ec2.Vpc", vpc_name c);
             ("aws.ec2.InternetGateway", "eks-igw");
             ("aws.ec2.Subnet", "eks-public-subnet-1")] /\
          outputs st = ∅
      | Ok _, Ok _ =>
          (exists v, fst (program cfg empty_stack) = Ok v) /\
          length (resources st) = 28%nat /\
          size (outputs st) = 11%nat
      end
  end.
Proof.
  destruct (config.load cfg) as [c|e] eqn:Hload.
  - rewrite (program_loaded _ _ _ Hload). unfold declarations.
    destruct (subscript (availability_zones c) 0);
      destruct (subscript (availability_zones c) 1);
      cbv zeta; repeat apply conj;
      try (vm_compute; reflexivity);
      eexists; vm_compute; reflexivity.
  - by apply program_load_error.
Qed.

(** X7. Every subnet has exactly one route table association.  The two
    public subnets share the one public route table, whose only route sends
    0.0.0.0/0 to the internet gateway and which targets no NAT gateway; each
    private subnet has a route table of its own. *)
Theorem subnet_route_tables cfg c z0 z1 :
  config.load cfg = Ok c ->
  subscript (availability_zones c) 0 = Ok z0 ->
  subscript (availability_zones c) 1 = Ok z1 ->
  exists v st,
    program cfg empty_stack = (Ok v, st) /\
    let rs := resources st in
    associations rs =
      [ (public_subnet_1 v, public_route_table v);
        (public_subnet_2 v, public_route_table v);
        (private_subnet_1 v, private_route_table_1 v);
        (private_subnet_2 v, private_route_table_2 v) ] /\
    map fst (associations rs) = select (has_type "aws.ec2.Subnet") rs /\
    select (has_type "aws.ec2.RouteTable") rs =
      [ public_route_table v; private_route_table_1 v;
        private_route_table_2 v ] /\
    routes <$> rs !! public_route_table v =
      Some [[ ("cidr_block", str "0.0.0.0/0");
              ("gateway_id", Out (igw v) ["id"]) ]] /\
    nat_targets <$> rs !! public_route_table v = Some [] /\
    select (has_type "aws.ec2.InternetGateway") rs = [igw v].
Proof.
  intros Hload H0 H1. enter_program c Hload H0 H1.
  repeat apply conj; vm_compute; reflexivity.
Qed.

(** X8. There is one VPC, and every declaration that takes a [vpc_id] gets
    the id of that VPC: the internet gateway, the four subnets, the three
    route tables and the two security groups. *)
Theorem one_vpc_holds_the_network cfg c z0 z1 :
  config.load cfg = Ok c ->
  subscript (availability_zones c) 0 = Ok z0 ->
  subscript (availability_zones c) 1 = Ok z1 ->
  exists v st,
    program cfg empty_stack = (Ok v, st) /\
    let rs := resources st in
    select (has_type "aws.ec2.Vpc") rs = [vpc v] /\
    select (has_arg "vpc_id") rs =
      [ igw v; public_subnet_1 v; public_subnet_2 v; private_subnet_1 v;
        private_subnet_2 v; public_route_table v; private_route_table_1 v;
        private_route_table_2 v; cluster_security_group v;
        node_security_group v ] /\
    Forall (fun r => has_arg "vpc_id" r = true ->
                     arg r "vpc_id" = Some (Out (vpc v) ["id"])) rs.
Proof.
  intros Hload H0 H1. enter_program c Hload H0 H1.
  split; [vm_compute; reflexivity|]. split; [vm_compute; reflexivity|].
  match goal with
  | |- Forall _ ?l =>
      let l' := eval vm_compute in l in
      replace l with l' by (vm_compute; reflexivity)
  end.
  repeat (apply List.Forall_cons;
          [intros Hv; first [discriminate Hv | reflexivity]|]).
  apply List.Forall_nil.
Qed.

(** X9. Every declaration that is tagged carries the three common tags of
    [config.py] and a [Name] tag equal to its own logical name; the
    declarations without tags are exactly the four route table
    associations and the five role policy attachments. *)
Theorem tags_follow_settings cfg c z0 z1 :
  config.load cfg = Ok c ->
  subscript (availability_zones c) 0 = Ok z0 ->
  subscript (availability_zones c) 1 = Ok z1 ->
  exists v st,
    program cfg empty_stack = (Ok v, st) /\
    let rs := resources st in
    Forall (fun r =>
      has_arg "tags" r = true ->
      tag r "Name" = Some (PStr (rname r)) /\
      tag r "Environment" = Some (PStr (py_or (get cfg "environment") "dev")) /\
      tag r "Project" = Some (PStr (py_or (get cfg "project") "eks-project")) /\
      tag r "CreatedBy" = Some (PStr "Pulumi")) rs /\
    select (fun r => negb (has_arg "tags" r)) rs =
      [ public_route_table_assoc_1 v; public_route_table_assoc_2 v;
        private_route_table_assoc_1 v; private_route_table_assoc_2 v;
        cluster_role_policy_attachment v;
        cluster_role_vpc_policy_attachment v;
        node_role_policy_attachment v; node_cni_policy_attachment v;
        node_registry_policy_attachment v ].
Proof.
  intros Hload H0 H1.
  pose proof (config_tags_field cfg c Hload) as Htags.
  rewrite (program_loaded _ _ _ Hload). clear Hload.
  revert H0 H1 Htags. unfold declarations.
  generalize (subscript (availability_zones c) 0),
             (subscript (availability_zones c) 1), (common_tags c),
             (py_or (get cfg "environment") "dev"),
             (py_or (get cfg "project") "eks-project").
  intros ? ? ? env proj -> -> ->.
  lazymatch goal with
  | |- exists v st, ?run = _ /\ _ =>
      let r := eval vm_compute in (fst run) in
      lazymatch r with
      | Ok ?v0 =>
          exists v0, (snd run); split; [vm_compute; reflexivity | cbv zeta]
      end
  end.
  split; [|vm_compute; reflexivity].
  match goal with
  | |- Forall _ ?l =>
      let l' := eval vm_compute in l in
      replace l with l' by (vm_compute; reflexivity)
  end.
  repeat (apply List.Forall_cons;
          [intros Hv; first [discriminate Hv | by repeat split]|]).
  apply List.Forall_nil.
Qed.

End MainExtras.

Section MainGraphExtras.
Context `{PyBuiltins}.
Import config main.

Lemma unreferenced_no_edge rs a b :
  In b (unreferenced rs) -> ~ edge rs a b.
Proof.
  unfold unreferenced. intros Hb (r & Ha & Hdep).
  apply filter_In in Hb as [_ Hb]. rewrite forallb_forall in Hb.
  assert (Hr : In r rs).
  { apply list_elem_of_In. by apply list_elem_of_lookup_2 in Ha. }
  specialize (Hb r Hr). apply negb_true_iff in Hb.
  assert (Hex : existsb (Nat.eqb b) (dependencies r) = true).
  { apply existsb_exists. exists b. split; [done | apply Nat.eqb_refl]. }
  congruence.
Qed.

Lemma path_ends_with_edge rs a b :
  tc (edge rs) a b -> exists y, edge rs y b.
Proof. induction 1 as [a b Hab | a m b _ _ IH]; [by exists a | exact IH]. Qed.

(** X10. The declarations that nothing depends on are the four route table
    associations, the five role policy attachments, the node security group
    and the node group.  No dependency path leads to any of them: in
    particular the cluster and the node group are not ordered after the
    policy attachments of their roles, and the node security group is used
    by no declaration. *)
Theorem nothing_waits_for_attachments cfg c z0 z1 :
  config.load cfg = Ok c ->
  subscript (availability_zones c) 0 = Ok z0 ->
  subscript (availability_zones c) 1 = Ok z1 ->
  exists v st,
    program cfg empty_stack = (Ok v, st) /\
    let rs := resources st in
    unreferenced rs =
      [ public_route_table_assoc_1 v; public_route_table_assoc_2 v;
        private_route_table_assoc_1 v; private_route_table_assoc_2 v;
        cluster_role_policy_attachment v;
        cluster_role_vpc_policy_attachment v;
        node_role_policy_attachment v; node_cni_policy_attachment v;
        node_registry_policy_attachment v;
        node_security_group v; node_group v ] /\
    forall a b, In b (unreferenced rs) -> ~ tc (edge rs) a b.
Proof.
  intros Hload H0 H1. enter_program c Hload H0 H1.
  split; [vm_compute; reflexivity|].
  intros a b Hb Hpath. apply path_ends_with_edge in Hpath as (y & Hy).
  by apply (unreferenced_no_edge _ y b Hb).
Qed.

(** X11. The cluster assumes the role whose trust policy names
    eks.amazonaws.com and which has the cluster and VPC-controller policies
    attached; the node group assumes the role whose trust policy names
    ec2.amazonaws.com and which has the worker-node, CNI and registry
    policies attached.  Every attachment belongs to one of the two roles. *)
Theorem roles_and_policies cfg c z0 z1 :
  config.load cfg = Ok c ->
  subscript (availability_zones c) 0 = Ok z0 ->
  subscript (availability_zones c) 1 = Ok z1 ->
  exists v st,
    program cfg empty_stack = (Ok v, st) /\
    let rs := resources st in
    select (has_type "aws.iam.Role") rs = [cluster_role v; node_role v] /\
    (fun r => arg r "role_arn") <$> rs !! eks_cluster v =
      Some (Some (Out (cluster_role v) ["arn"])) /\
    (fun r => arg r "node_role_arn") <$> rs !! node_group v =
      Some (Some (Out (node_role v) ["arn"])) /\
    (fun r => arg r "assume_role_policy") <$> rs !! cluster_role v =
      Some (Some (str (json_dumps (trust_policy "eks.amazonaws.com")))) /\
    (fun r => arg r "assume_role_policy") <$> rs !! node_role v =
      Some (Some (str (json_dumps (trust_policy "ec2.amazonaws.com")))) /\
    attached_policies rs (cluster_role v) =
      [ Some (str "arn:aws:iam::aws:policy/AmazonEKSClusterPolicy");
        Some (str "arn:aws:iam::aws:policy/AmazonEKSVPCResourceController") ] /\
    attached_policies rs (node_role v) =
      [ Some (str "arn:aws:iam::aws:policy/AmazonEKSWorkerNodePolicy");
        Some (str "arn:aws:iam::aws:policy/AmazonEKS_CNI_Policy");
        Some (str "arn:aws:iam::aws:policy/AmazonEC2ContainerRegistryReadOnly") ] /\
    length (select (has_type "aws.iam.RolePolicyAttachment") rs) = 5%nat.
Proof.
  intros Hload H0 H1. enter_program c Hload H0 H1.
  repeat apply conj; vm_compute; reflexivity.
Qed.

(** X12. The node group is placed in exactly the private subnets and joins
    the declared cluster by its name output, while the cluster spans all
    four subnets and uses the cluster security group; the node group takes
    its three sizes and its instance type from the settings unchanged. *)
Theorem node_group_placement cfg c z0 z1 :
  config.load cfg = Ok c ->
  subscript (availability_zones c) 0 = Ok z0 ->
  subscript (availability_zones c) 1 = Ok z1 ->
  exists v st,
    program cfg empty_stack = (Ok v, st) /\
    let rs := resources st in
    (fun r => ids_of (arg r "subnet_ids")) <$> rs !! node_group v =
      Some (select (is_subnet "Private") rs) /\
    (fun r => ids_of (arg_at r ["vpc_config"; "subnet_ids"]))
      <$> rs !! eks_cluster v =
      Some (select (has_type "aws.ec2.Subnet") rs) /\
    (fun r => ids_of (arg_at r ["vpc_config"; "security_group_ids"]))
      <$> rs !! eks_cluster v = Some [cluster_security_group v] /\
    (fun r => arg r "cluster_name") <$> rs !! node_group v =
      Some (Some (Out (eks_cluster v) ["name"])) /\
    (fun r => arg r "scaling_config") <$> rs !! node_group v =
      Some (Some (Obj [ ("desired_size", int (node_desired_count c));
                        ("max_size", int (node_max_count c));
                        ("min_size", int (node_min_count c)) ])) /\
    (fun r => arg r "instance_types") <$> rs !! node_group v =
      Some (Some (Lit (PList [PStr (node_instance_type c)]))).
Proof.
  intros Hload H0 H1. enter_program c Hload H0 H1.
  repeat apply conj; vm_compute; reflexivity.
Qed.

End MainGraphExtras.

Section MainFanOut.
Context `{PyBuiltins}.
Import config main.

Lemma select_from_spec p rs n a :
  In a (select_from n p rs) <->
  exists r, rs !! (a - n)%nat = Some r /\ (n <= a)%nat /\ p r = true.
Proof.
  revert n. induction rs as [|r0 rs IH]; intros n; simpl.
  - split; [done | by intros (r & Hr & _)].
  - assert (Hrest : In a (select_from (S n) p rs) <->
      exists r, (r0 :: rs) !! (a - n)%nat = Some r /\ (S n <= a)%nat /\
                p r = true).
    { rewrite IH. split; intros (r & Hr & Hle & Hp); exists r;
        (split; [|by split]).
      - replace (a - n)%nat with (S (a - S n)) by lia. exact Hr.
      - replace (a - n)%nat with (S (a - S n)) in Hr by lia. exact Hr. }
    destruct (p r0) eqn:Hp0; simpl; rewrite ?Hrest; split.
    + intros [<- | (r & Hr & Hle & Hp)].
      * exists r0. rewrite Nat.sub_diag. by repeat split.
      * exists r. repeat split; [done | lia | done].
    + intros (r & Hr & Hle & Hp).
      destruct (decide (a = n)) as [-> | Hne]; [by left | right].
      exists r. repeat split; [done | lia | done].
    + intros (r & Hr & Hle & Hp). exists r. repeat split; [done | lia | done].
    + intros (r & Hr & Hle & Hp).
      destruct (decide (a = n)) as [-> | Hne].
      * rewrite Nat.sub_diag in Hr. injection Hr as <-. congruence.
      * exists r. repeat split; [done | lia | done].
Qed.

Lemma dependents_spec rs a b : In a (dependents rs b) <-> edge rs a b.
Proof.
  unfold dependents, select, edge. rewrite select_from_spec.
  rewrite Nat.sub_0_r. split.
  - intros (r & Hr & _ & Hex). exists r. split; [done|].
    apply existsb_exists in Hex as (x & Hx & Heq).
    by apply Nat.eqb_eq in Heq as ->.
  - intros (r & Hr & Hin). exists r. split; [done|]. split; [lia|].
    apply existsb_exists. exists b. split; [done | apply Nat.eqb_refl].
Qed.

(** X19. Who depends on what in the network: each Elastic IP is used by
    one NAT gateway only and each NAT gateway by one private route table
    only; the internet gateway is awaited by both NAT gateways and the
    public route table; a public subnet is used by its NAT gateway, its
    association and the cluster, a private subnet by its association, the
    cluster and the node group. *)
Theorem network_dependents cfg c z0 z1 :
  config.load cfg = Ok c ->
  subscript (availability_zones c) 0 = Ok z0 ->
  subscript (availability_zones c) 1 = Ok z1 ->
  exists v st,
    program cfg empty_stack = (Ok v, st) /\
    let rs := resources st in
    (forall a b, In a (dependents rs b) <-> edge rs a b) /\
    dependents rs (eip_1 v) = [nat_gateway_1 v] /\
    dependents rs (eip_2 v) = [nat_gateway_2 v] /\
    dependents rs (nat_gateway_1 v) = [private_route_table_1 v] /\
    dependents rs (nat_gateway_2 v) = [private_route_table_2 v] /\
    dependents rs (igw v) =
      [nat_gateway_1 v; nat_gateway_2 v; public_route_table v] /\
    dependents rs (public_subnet_1 v) =
      [nat_gateway_1 v; public_route_table_assoc_1 v; eks_cluster v] /\
    dependents rs (public_subnet_2 v) =
      [nat_gateway_2 v; public_route_table_assoc_2 v; eks_cluster v] /\
    dependents rs (private_subnet_1 v) =
      [private_route_table_assoc_1 v; eks_cluster v; node_group v] /\
    dependents rs (private_subnet_2 v) =
      [private_route_table_assoc_2 v; eks_cluster v; node_group v].
Proof.
  intros Hload H0 H1. enter_program c Hload H0 H1.
  split; [intros a b; apply dependents_spec|].
  repeat apply conj; vm_compute; reflexivity.
Qed.

(** X20. The node security group admits TCP only from the cluster
    security group, on ports 1025-65535 and 443, and names no CIDR range;
    the cluster security group admits TCP 443 from 0.0.0.0/0; both allow all
    outbound traffic.  The cluster security group is used by the node
    security group and the cluster. *)
Theorem security_group_rules cfg c z0 z1 :
  config.load cfg = Ok c ->
  subscript (availability_zones c) 0 = Ok z0 ->
  subscript (availability_zones c) 1 = Ok z1 ->
  exists v st,
    program cfg empty_stack = (Ok v, st) /\
    let rs := resources st in
    select (has_type "aws.ec2.SecurityGroup") rs =
      [cluster_security_group v; node_security_group v] /\
    (fun r => rules r "ingress") <$> rs !! node_security_group v =
      Some [ [ ("protocol", str "tcp"); ("from_port", int 1025);
               ("to_port", int 65535);
               ("security_groups",
                Arr [Out (cluster_security_group v) ["id"]]) ];
             [ ("protocol", str "tcp"); ("from_port", int 443);
               ("to_port", int 443);
               ("security_groups",
                Arr [Out (cluster_security_group v) ["id"]]) ] ] /\
    (fun r => rules r "ingress") <$> rs !! cluster_security_group v =
      Some [ [ ("protocol", str "tcp"); ("from_port", int 443);
               ("to_port", int 443);
               ("cidr_blocks", Lit (PList [PStr "0.0.0.0/0"])) ] ] /\
    (fun r => rules r "egress") <$> rs !! node_security_group v =
      (fun r => rules r "egress") <$> rs !! cluster_security_group v /\
    (fun r => rules r "egress") <$> rs !! cluster_security_group v =
      Some [ [ ("protocol", str "-1"); ("from_port", int 0);
               ("to_port", int 0);
               ("cidr_blocks", Lit (PList [PStr "0.0.0.0/0"])) ] ] /\
    dependents rs (cluster_security_group v) =
      [node_security_group v; eks_cluster v] /\
    dependents rs (node_security_group v) = [].
Proof.
  intros Hload H0 H1. enter_program c Hload H0 H1.
  repeat apply conj; vm_compute; reflexivity.
Qed.

End MainFanOut.

Section LogicalNames.
Context `{PyBuiltins}.
Import config main.

Lemma in_urn_names (t n : string) (l : list (string * string)) :
  In (t, n) l ->
  In n (map snd (List.filter (fun p => String.eqb (fst p) t) l)).
Proof.
  induction l as [|[t' n'] l IH]; [done|]. simpl.
  intros [[= -> ->] | Hin].
  - rewrite String.eqb_refl. by left.
  - destruct (String.eqb t' t); [right|]; by apply IH.
Qed.

(** X13. The pairs of class and logical name of the 28 declarations are
    pairwise distinct exactly when the two configurable role names differ:
    a store that gives [cluster_role_name] and [node_role_name] the same
    value makes the program declare two IAM roles under one name. *)
Theorem logical_names_clash_only_on_roles cfg c z0 z1 :
  config.load cfg = Ok c ->
  subscript (availability_zones c) 0 = Ok z0 ->
  subscript (availability_zones c) 1 = Ok z1 ->
  exists v st,
    program cfg empty_stack = (Ok v, st) /\
    (NoDup (map urn (resources st)) <->
     cluster_role_name c <> node_role_name c).
Proof.
  intros Hload H0 H1. enter_program c Hload H0 H1.
  destruct c. cbn [cluster_role_name node_role_name].
  match goal with
  | |- NoDup ?l <-> _ =>
      let l' := eval vm_compute in l in
      replace l with l' by (vm_compute; reflexivity)
  end.
  split.
  - intros Hnd Heq.
    assert (Hij : 17%nat = 20%nat); [|discriminate Hij].
    eapply (NoDup_lookup _ 17%nat 20%nat _ Hnd); [reflexivity|].
    by rewrite Heq.
  - intros Hne.
    repeat (apply NoDup_cons; split;
            [ intros Hin%list_elem_of_In%in_urn_names;
              vm_compute in Hin; intuition (discriminate || congruence) | ]).
    apply NoDup_nil. constructor.
Qed.

End LogicalNames.

Section Zones.
Context `{PyBuiltins}.
Import config main.

Lemma declarations_zones c zones zones' st :
  subscript zones 0 = subscript zones' 0 ->
  subscript zones 1 = subscript zones' 1 ->
  declarations (with_zones c zones) st = declarations (with_zones c zones') st.
Proof.
  intros E0 E1. unfold declarations.
  cbn [with_zones vpc_name vpc_cidr availability_zones private_subnet_1_cidr
       private_subnet_2_cidr public_subnet_1_cidr public_subnet_2_cidr
       cluster_name cluster_version cluster_role_name node_group_name
       node_desired_count node_min_count node_max_count node_instance_type
       node_role_name aws_region common_tags].
  by rewrite E0, E1.
Qed.

(** X14. The declarations read the zones only as [availability_zones[0]]
    and [availability_zones[1]].  Zones listed after the second are ignored,
    and a zones value that is a string is read character by character, its
    first two characters serving as the two zones. *)
Theorem only_two_zones_are_read c st :
  (forall zones zones',
     subscript zones 0 = subscript zones' 0 ->
     subscript zones 1 = subscript zones' 1 ->
     declarations (with_zones c zones) st =
     declarations (with_zones c zones') st) /\
  (forall z0 z1 rest,
     declarations (with_zones c (PList (z0 :: z1 :: rest))) st =
     declarations (with_zones c (PList [z0; z1])) st) /\
  (forall a b rest,
     declarations (with_zones c (PStr (String a (String b rest)))) st =
     declarations (with_zones c
       (PList [PStr (String a EmptyString); PStr (String b EmptyString)])) st).
Proof.
  repeat apply conj.
  - intros zones zones'. apply declarations_zones.
  - intros z0 z1 rest. by apply declarations_zones.
  - intros a b rest. by apply declarations_zones.
Qed.

End Zones.

(** * The HPA demo, beyond the autoscaler *)

Section DictFacts.
Context {V : Type}.

Lemma dict_get_set_eq (d : list (string * V)) k v :
  dict_get (dict_set d k v) k = Some v.
Proof.
  induction d as [|[k' v'] d IH]; simpl.
  - by rewrite String.eqb_refl.
  - destruct (String.eqb k' k) eqn:E; simpl; by rewrite E.
Qed.

Lemma dict_get_set_ne (d : list (string * V)) k k' v :
  k' <> k -> dict_get (dict_set d k' v) k = dict_get d k.
Proof.
  intros Hne. apply String.eqb_neq in Hne.
  induction d as [|[k0 v0] d IH]; simpl.
  - by rewrite Hne.
  - destruct (String.eqb k0 k') eqn:E; simpl.
    + apply String.eqb_eq in E as ->. by rewrite Hne.
    + destruct (String.eqb k0 k); [done | exact IH].
Qed.

(** A dict display [{**base, **extra}] keeps the bindings of [base] for the
    keys that [extra] does not have. *)
Lemma dict_get_extend_other (base extra : list (string * V)) k :
  dict_get extra k = None ->
  dict_get (dict_extend base extra) k = dict_get base k.
Proof.
  unfold dict_extend. revert base.
  induction extra as [|[k' v'] extra IH]; intros base Hk; [done|].
  simpl in *. destruct (String.eqb k' k) eqn:E; [discriminate|].
  rewrite IH by done. apply dict_get_set_ne. by apply String.eqb_neq.
Qed.

End DictFacts.

Section HpaExtras.
Import hpa_config hpa.

(** X15. When [common_tags] has no [app] key, as with the dict that
    [hpa.py] assigns to it, the demo deployment and its service select the same pods: the
    pod template carries the label [app = demo_app_name], which is what the
    deployment selector and the service selector ask for, and the service
    forwards port 80 to the container port [demo_app_port]. *)
Theorem demo_service_selects_demo_pods g provider st :
  dict_get (common_tags g) "app" = None ->
  exists dep svc labels cfields,
    create_demo_deployment g provider st =
      (Ok (length (resources st)),
       {| resources := resources st ++ [dep];
          outputs := outputs st; infos := infos st |}) /\
    create_demo_service g provider st =
      (Ok (length (resources st)),
       {| resources := resources st ++ [svc];
          outputs := outputs st; infos := infos st |}) /\
    arg_at dep ["spec"; "template"; "metadata"; "labels"] =
      Some (Lit (PDict labels)) /\
    dict_get labels "app" = Some (PStr (demo_app_name g)) /\
    arg_at dep ["spec"; "selector"; "match_labels"] =
      Some (Lit (PDict [("app", PStr (demo_app_name g))])) /\
    arg_at svc ["spec"; "selector"] =
      Some (Lit (PDict [("app", PStr (demo_app_name g))])) /\
    arg_at dep ["spec"; "template"; "spec"; "containers"] =
      Some (Arr [Obj cfields]) /\
    dict_get cfields "ports" =
      Some (Lit (PList [PDict [("container_port", PInt (demo_app_port g))]])) /\
    arg_at svc ["spec"; "ports"] =
      Some (Arr [Obj [("port", int 80);
                      ("target_port", int (demo_app_port g))]]).
Proof.
  intros Happ. destruct st as [rs outs msgs]. run_hpa.
  eexists _, _, _, _. split; [reflexivity|]. split; [reflexivity|].
  split; [reflexivity|]. split.
  { rewrite dict_get_extend_other by done. reflexivity. }
  by repeat split.
Qed.

(** X16. With the demo enabled, the deployment, the service and the
    autoscaler are declared in the one namespace [demo_namespace] and the
    metrics-server chart in [kube-system]; all four declarations use the
    provider that was passed in and nothing else as provider. *)
Theorem demo_objects_share_namespace g prov st :
  enable_hpa g = true ->
  let n := length (resources st) in
  let added := drop n (resources (snd (setup_hpa_infrastructure g prov st))) in
  map (fun r => arg_at r ["metadata"; "namespace"]) added =
    [ None; Some (str (demo_namespace g)); Some (str (demo_namespace g));
      Some (str (demo_namespace g)) ] /\
  map (fun r => arg_at r ["config"; "namespace"]) added =
    [ Some (str "kube-system"); None; None; None ] /\
  map (fun r => provider (ropts r)) added =
    [ Some prov; Some prov; Some prov; Some prov ].
Proof.
  intros Hen. destruct st as [rs outs msgs]. cbv zeta.
  run_hpa. rewrite Hen. cbv beta iota delta [snd resources].
  rewrite <- !app_assoc, drop_app_length. by repeat split.
Qed.

(** X17. The functions of [hpa.py] only add to the stack: the declarations
    made before are kept in place, the log is only extended, and the one
    output that can change is [metrics_server_chart]. *)
Theorem hpa_functions_only_append g prov deployment st :
  let keeps (st' : Stack) :=
    take (length (resources st)) (resources st') = resources st /\
    take (length (infos st)) (infos st') = infos st /\
    forall k, k <> "metrics_server_chart" ->
              outputs st' !! k = outputs st !! k in
  keeps (snd (create_metrics_server g prov st)) /\
  keeps (snd (create_demo_deployment g prov st)) /\
  keeps (snd (create_demo_service g prov st)) /\
  keeps (snd (create_hpa g deployment prov st)) /\
  keeps (snd (setup_hpa_infrastructure g prov st)) /\
  outputs (snd (create_demo_deployment g prov st)) = outputs st /\
  outputs (snd (create_demo_service g prov st)) = outputs st /\
  outputs (snd (create_hpa g deployment prov st)) = outputs st.
Proof.
  destruct st as [rs outs msgs]. cbv zeta.
  destruct (enable_hpa g) eqn:Hen; run_hpa; rewrite Hen;
    cbv beta iota delta [snd resources outputs infos];
    rewrite <- ?app_assoc, ?take_app_length, ?firstn_all;
    repeat apply conj; try done;
    intros k Hk; by rewrite lookup_insert_ne.
Qed.

End HpaExtras.

Section AlwaysDeclared.
Import hpa_config hpa.

(** X18. Whatever [config.get_bool('enable_hpa')] returns, nothing, true or
    false, the value of [config.get_bool('enable_hpa') or True] is [True];
    under module variables whose [enable_hpa] has that value,
    [setup_hpa_infrastructure] adds exactly four declarations, the chart,
    the deployment, the service and the autoscaler, in this order, and logs
    nothing. *)
Theorem hpa_demo_is_always_declared (en : option bool) g prov st :
  enable_hpa g = py_or en true ->
  let st' := snd (setup_hpa_infrastructure g prov st) in
  map rtype (drop (length (resources st)) (resources st')) =
    [ "k8s.helm.v3.Chart"; "k8s.apps.v1.Deployment"; "k8s.core.v1.Service";
      "k8s.autoscaling.v2.HorizontalPodAutoscaler" ] /\
  length (resources st') = (length (resources st) + 4)%nat /\
  infos st' = infos st /\
  exists d, fst (setup_hpa_infrastructure g prov st) = Ok d /\
            map fst d =
              [ "deployment_name"; "service_name"; "hpa_name";
                "hpa_min_replicas"; "hpa_max_replicas"; "hpa_cpu_threshold";
                "hpa_memory_threshold" ].
Proof.
  intros Hen. rewrite py_or_true in Hen.
  destruct st as [rs outs msgs]. cbv zeta.
  run_hpa. rewrite Hen. cbv beta iota delta [fst snd resources infos].
  rewrite <- !app_assoc, drop_app_length, !length_app.
  repeat apply conj; try done. by eexists.
Qed.

End AlwaysDeclared.


(** * The extra theorems at concrete inputs *)

Lemma supplied_options_are_used_witness :
  let cfg : Config :=
    <["demo_app_port" := "http"]>
      (<["node_max_count" := "-2"]> {[ "vpc_cidr" := "172.16.0.0/12" ]}) in
  config_typed (H := sample.builtins) cfg /\
  exists c,
    config.load (H := sample.builtins) cfg = Ok c /\
    config.vpc_cidr c = "172.16.0.0/12" /\
    config.node_max_count c = -2.
Proof.
  intros cfg.
  assert (Hwt : config_typed (H := sample.builtins) cfg).
  { split.
    - intros k v Hk Hlk. unfold config_int_options in Hk. simpl in Hk.
      repeat (destruct Hk as [<- | Hk];
              [ vm_compute in Hlk;
                first [ discriminate Hlk
                      | injection Hlk as <-; eexists; vm_compute; reflexivity ]
              | ]).
      destruct Hk.
    - intros v Hlk. vm_compute in Hlk. discriminate Hlk. }
  split; [exact Hwt|].
  destruct (supplied_options_are_used cfg Hwt)
    as (c & Hc & Hstr & Hint & _).
  exists c. split; [exact Hc|]. split.
  - apply (Hstr "vpc_cidr" config.vpc_cidr "172.16.0.0/12").
    + unfold config_string_fields. simpl. tauto.
    + vm_compute. reflexivity.
    + discriminate.
  - apply (Hint "node_max_count" config.node_max_count "-2" (-2)).
    + unfold config_int_fields. simpl. tauto.
    + vm_compute. reflexivity.
    + vm_compute. reflexivity.
    + discriminate.
Defined.


(** Runs a theorem of the main program on the store [cfg], whose zones are
    the default ones. *)
Ltac at_store thm cfg :=
  let c := fresh "c" in
  pose_settings cfg c;
  let Hload := fresh "Hload" in
  assert (Hload : config.load (H := sample.builtins) cfg = Ok c)
    by (vm_compute; reflexivity);
  let H0 := fresh "H0" in
  assert (H0 : subscript (config.availability_zones c) 0 =
               Ok (PStr "us-east-1a")) by reflexivity;
  let H1 := fresh "H1" in
  assert (H1 : subscript (config.availability_zones c) 1 =
               Ok (PStr "us-east-1b")) by reflexivity;
  exists c; repeat (split; [assumption|]);
  pose proof (thm sample.builtins cfg c _ _ Hload H0 H1).

Lemma subnet_route_tables_witness :
  let cfg : Config := {[ "vpc_name" := "shop-vpc" ]} in
  exists c,
    config.load (H := sample.builtins) cfg = Ok c /\
    subscript (config.availability_zones c) 0 = Ok (PStr "us-east-1a") /\
    subscript (config.availability_zones c) 1 = Ok (PStr "us-east-1b") /\
    exists v st,
      main.program (H := sample.builtins) cfg empty_stack = (Ok v, st) /\
      length (associations (resources st)) = 4%nat.
Proof.
  intros cfg. at_store @subnet_route_tables cfg.
  destruct H as (v & st & Hrun & Hassoc & _).
  exists v, st. split; [exact Hrun|]. by rewrite Hassoc.
Defined.

Lemma one_vpc_holds_the_network_witness :
  let cfg : Config := {[ "vpc_cidr" := "10.8.0.0/16" ]} in
  exists c,
    config.load (H := sample.builtins) cfg = Ok c /\
    subscript (config.availability_zones c) 0 = Ok (PStr "us-east-1a") /\
    subscript (config.availability_zones c) 1 = Ok (PStr "us-east-1b") /\
    exists v st,
      main.program (H := sample.builtins) cfg empty_stack = (Ok v, st) /\
      select (has_type "aws.ec2.Vpc") (resources st) = [main.vpc v].
Proof.
  intros cfg. at_store @one_vpc_holds_the_network cfg.
  destruct H as (v & st & Hrun & Hvpc & _).
  exists v, st. split; [exact Hrun | exact Hvpc].
Defined.

Lemma tags_follow_settings_witness :
  let cfg : Config := {[ "environment" := "prod" ]} in
  exists c,
    config.load (H := sample.builtins) cfg = Ok c /\
    subscript (config.availability_zones c) 0 = Ok (PStr "us-east-1a") /\
    subscript (config.availability_zones c) 1 = Ok (PStr "us-east-1b") /\
    exists v st,
      main.program (H := sample.builtins) cfg empty_stack = (Ok v, st) /\
      length (select (fun r => negb (has_arg "tags" r)) (resources st)) =
        9%nat.
Proof.
  intros cfg. at_store @tags_follow_settings cfg.
  destruct H as (v & st & Hrun & _ & Hno).
  exists v, st. split; [exact Hrun|]. by rewrite Hno.
Defined.

Lemma nothing_waits_for_attachments_witness :
  let cfg : Config := ∅ in
  exists c,
    config.load (H := sample.builtins) cfg = Ok c /\
    subscript (config.availability_zones c) 0 = Ok (PStr "us-east-1a") /\
    subscript (config.availability_zones c) 1 = Ok (PStr "us-east-1b") /\
    exists v st,
      main.program (H := sample.builtins) cfg empty_stack = (Ok v, st) /\
      ~ tc (edge (resources st)) (main.eks_cluster v)
           (main.cluster_role_policy_attachment v).
Proof.
  intros cfg. at_store @nothing_waits_for_attachments cfg.
  destruct H as (v & st & Hrun & Hun & Hpath).
  exists v, st. split; [exact Hrun|].
  apply Hpath. rewrite Hun. simpl. tauto.
Defined.

Lemma roles_and_policies_witness :
  let cfg : Config := {[ "cluster_role_name" := "control-plane" ]} in
  exists c,
    config.load (H := sample.builtins) cfg = Ok c /\
    subscript (config.availability_zones c) 0 = Ok (PStr "us-east-1a") /\
    subscript (config.availability_zones c) 1 = Ok (PStr "us-east-1b") /\
    exists v st,
      main.program (H := sample.builtins) cfg empty_stack = (Ok v, st) /\
      length (attached_policies (resources st) (main.node_role v)) = 3%nat.
Proof.
  intros cfg. at_store @roles_and_policies cfg.
  destruct H as (v & st & Hrun & _ & _ & _ & _ & _ & _ & Hnode & _).
  exists v, st. split; [exact Hrun|]. by rewrite Hnode.
Defined.

Lemma node_group_placement_witness :
  let cfg : Config := {[ "node_instance_type" := "m5.large" ]} in
  exists c,
    config.load (H := sample.builtins) cfg = Ok c /\
    subscript (config.availability_zones c) 0 = Ok (PStr "us-east-1a") /\
    subscript (config.availability_zones c) 1 = Ok (PStr "us-east-1b") /\
    exists v st,
      main.program (H := sample.builtins) cfg empty_stack = (Ok v, st) /\
      (fun r => arg r "instance_types") <$> resources st !! main.node_group v =
        Some (Some (Lit (PList [PStr "m5.large"]))).
Proof.
  intros cfg. at_store @node_group_placement cfg.
  destruct H as (v & st & Hrun & _ & _ & _ & _ & _ & Htype).
  exists v, st. split; [exact Hrun | exact Htype].
Defined.

(** One name for both roles: the logical names clash. *)
Lemma logical_names_clash_only_on_roles_witness :
  let cfg : Config :=
    <["node_role_name" := "ops"]> {[ "cluster_role_name" := "ops" ]} in
  exists c,
    config.load (H := sample.builtins) cfg = Ok c /\
    subscript (config.availability_zones c) 0 = Ok (PStr "us-east-1a") /\
    subscript (config.availability_zones c) 1 = Ok (PStr "us-east-1b") /\
    exists v st,
      main.program (H := sample.builtins) cfg empty_stack = (Ok v, st) /\
      ~ NoDup (map urn (resources st)).
Proof.
  intros cfg. at_store @logical_names_clash_only_on_roles cfg.
  destruct H as (v & st & Hrun & Hiff).
  exists v, st. split; [exact Hrun|].
  intros Hnd. apply Hiff in Hnd. apply Hnd. reflexivity.
Defined.

Lemma only_two_zones_are_read_witness :
  let c := with_zones
    {| config.vpc_name := "eks-vpc"; config.vpc_cidr := "10.0.0.0/16";
       config.availability_zones := PNone;
       config.private_subnet_1_cidr := "10.0.1.0/24";
       config.private_subnet_2_cidr := "10.0.2.0/24";
       config.public_subnet_1_cidr := "10.0.101.0/24";
       config.public_subnet_2_cidr := "10.0.102.0/24";
       config.cluster_name := "eks-cluster"; config.cluster_version := "1.28";
       config.cluster_role_name := "eks-cluster-role";
       config.node_group_name := "eks-node-group";
       config.node_desired_count := 2; config.node_min_count := 1;
       config.node_max_count := 4; config.node_instance_type := "t3.medium";
       config.node_role_name := "eks-node-role";
       config.aws_region := "us-east-1";
       config.common_tags := [("CreatedBy", PStr "Pulumi")] |} in
  subscript (PDict []) 0 = subscript (PDict [("a", PNone)]) 0 /\
  subscript (PDict []) 1 = subscript (PDict [("a", PNone)]) 1 /\
  main.declarations (H := sample.builtins) (c (PDict [])) empty_stack =
  main.declarations (H := sample.builtins) (c (PDict [("a", PNone)]))
    empty_stack.
Proof.
  intros c. split; [reflexivity|]. split; [reflexivity|].
  destruct (only_two_zones_are_read (H := sample.builtins)
              (c PNone) empty_stack) as (Hgen & _).
  apply (Hgen (PDict []) (PDict [("a", PNone)])); reflexivity.
Defined.

(** The module variables of [hpa.py] at their literals. *)
Lemma demo_service_selects_demo_pods_witness :
  dict_get (hpa_config.common_tags sample.hpa_state) "app" = None /\
  exists svc,
    resources (snd (hpa.create_demo_service sample.hpa_state 0%nat
                      empty_stack)) = [svc] /\
    arg_at svc ["spec"; "selector"] =
      Some (Lit (PDict [("app", PStr "demo-app")])).
Proof.
  split; [reflexivity|].
  destruct (demo_service_selects_demo_pods sample.hpa_state 0%nat empty_stack
              eq_refl)
    as (dep & svc & labels & cfields & _ & Hsvc & _ & _ & _ & Hsel & _).
  exists svc. rewrite Hsvc. split; [reflexivity | exact Hsel].
Defined.

Lemma demo_objects_share_namespace_witness :
  hpa_config.enable_hpa sample.hpa_state = true /\
  map (fun r => arg_at r ["metadata"; "namespace"])
    (resources (snd (hpa.setup_hpa_infrastructure sample.hpa_state 0%nat
                       empty_stack))) =
    [ None; Some (str "default"); Some (str "default");
      Some (str "default") ].
Proof.
  split; [reflexivity|].
  destruct (demo_objects_share_namespace sample.hpa_state 0%nat empty_stack
              eq_refl) as (Hns & _).
  exact Hns.
Defined.

(** [get_bool] returned [False]: the store said false. *)
Lemma hpa_demo_is_always_declared_witness :
  hpa_config.enable_hpa sample.hpa_state = py_or (Some false) true /\
  length (resources (snd (hpa.setup_hpa_infrastructure sample.hpa_state 0%nat
                            empty_stack))) = 4%nat.
Proof.
  split; [reflexivity|].
  destruct (hpa_demo_is_always_declared (Some false) sample.hpa_state 0%nat
              empty_stack eq_refl)
    as (_ & Hlen & _).
  exact Hlen.
Defined.

Lemma network_dependents_witness :
  let cfg : Config := {[ "project" := "shop" ]} in
  exists c,
    config.load (H := sample.builtins) cfg = Ok c /\
    subscript (config.availability_zones c) 0 = Ok (PStr "us-east-1a") /\
    subscript (config.availability_zones c) 1 = Ok (PStr "us-east-1b") /\
    exists v st,
      main.program (H := sample.builtins) cfg empty_stack = (Ok v, st) /\
      dependents (resources st) (main.eip_1 v) = [main.nat_gateway_1 v].
Proof.
  intros cfg. at_store @network_dependents cfg.
  destruct H as (v & st & Hrun & _ & Heip & _).
  exists v, st. split; [exact Hrun | exact Heip].
Defined.

Lemma security_group_rules_witness :
  let cfg : Config := {[ "cluster_version" := "1.29" ]} in
  exists c,
    config.load (H := sample.builtins) cfg = Ok c /\
    subscript (config.availability_zones c) 0 = Ok (PStr "us-east-1a") /\
    subscript (config.availability_zones c) 1 = Ok (PStr "us-east-1b") /\
    exists v st,
      main.program (H := sample.builtins) cfg empty_stack = (Ok v, st) /\
      dependents (resources st) (main.node_security_group v) = [].
Proof.
  intros cfg. at_store @security_group_rules cfg.
  destruct H as (v & st & Hrun & _ & _ & _ & _ & _ & _ & Hnone).
  exists v, st. split; [exact Hrun | exact Hnone].
Defined.
